(** * tfrutil.client: validation and dispatch of [create_tfrecords]

    A shallow embedding of [src/tfrutil/client.py].  Python exceptions are
    values of type [Exception]; a function that may raise returns a
    [Result]; the side effects of [create_tfrecords] (logging set-up and
    tear-down, the calls to the Beam collaborator) are recorded in a
    trace of events. *)

From Stdlib Require Import List String ZArith Bool Lia.
Import ListNotations.
Open Scope string_scope.

(** ** Exceptions and results *)

Inductive Exception : Type :=
| AttributeError (msg : string)
| KeyError (keys : list string)
| ValueError (msg : string)
| NotImplementedError
| ExternalError (msg : string).
(* [ExternalError] stands for whatever a collaborator raises: the file
   system, the CSV parser, the Beam pipeline. *)

Inductive Result (A : Type) : Type :=
| OK (a : A)
| Raise (e : Exception).
Arguments OK {A} a.
Arguments Raise {A} e.

Definition raises {A} (r : Result A) : Prop := exists e, r = Raise e.

Definition is_ok {A} (r : Result A) : bool :=
  match r with OK _ => true | Raise _ => false end.

(** A computation that performs observable effects: the events it
    emitted, in order, and how it ended. *)
Definition Traced (Ev A : Type) : Type := (list Ev * Result A)%type.

Class Monad (M : Type -> Type) : Type := {
  ret : forall {A}, A -> M A;
  bind : forall {A B}, M A -> (A -> M B) -> M B
}.

Notation "x <- c ;; k" := (bind c (fun x => k))
  (at level 61, c at next level, right associativity).
Notation "c ;;; k" := (bind c (fun _ => k))
  (at level 61, right associativity).

#[global] Instance Result_Monad : Monad Result := {
  ret := fun A a => OK a;
  bind := fun A B c k => match c with OK a => k a | Raise e => Raise e end
}.

#[global] Instance Traced_Monad (Ev : Type) : Monad (Traced Ev) := {
  ret := fun A a => ([], OK a);
  bind := fun A B c k =>
    match c with
    | (t, OK a) => let (t', r) := k a in ((t ++ t')%list, r)
    | (t, Raise e) => (t, Raise e)
    end
}.

(** [emit ev] performs one effect that cannot fail; [lift ev r] performs a
    call whose outcome is [r] and records it as [ev]. *)
Definition emit {Ev} (ev : Ev) : Traced Ev unit := ([ev], OK tt).
Definition lift {Ev A} (ev : Ev) (r : Result A) : Traced Ev A := ([ev], r).

(** ** Python strings *)

Module py.

Definition startswith (s pre : string) : bool := String.prefix pre s.

Definition endswith (s suf : string) : bool :=
  let n := String.length s in
  let m := String.length suf in
  if (m <=? n)%nat then String.eqb (substring (n - m) m s) suf else false.

(** [repr] of a str without quotes inside, and of a list of such. *)
Definition repr_str (s : string) : string := "'" ++ s ++ "'".

Definition repr_list (l : list string) : string :=
  "[" ++ String.concat ", " (map repr_str l) ++ "]".

(** [str(v)] for an [Optional[str]]. *)
Definition str_opt (v : option string) : string :=
  match v with Some s => s | None => "None" end.

(** Truth value of an [Optional[str]]: [None] and [''] are false. *)
Definition truthy (v : option string) : bool :=
  match v with
  | Some s => negb (String.eqb s "")
  | None => false
  end.

(** Truth value of an [Optional[Sequence]]: [None] and [[]] are false. *)
Definition truthy_seq {A} (v : option (list A)) : bool :=
  match v with
  | Some (_ :: _) => true
  | _ => false
  end.

(** [x in l] for a list of str. *)
Definition contains (x : string) (l : list string) : bool :=
  existsb (String.eqb x) l.

(** [l1 == l2] for lists of str. *)
Fixpoint list_eqb (l1 l2 : list string) : bool :=
  match l1, l2 with
  | [], [] => true
  | x :: l1', y :: l2' => String.eqb x y && list_eqb l1' l2'
  | _, _ => false
  end.

(** [os.path.join(a, b)]: an absolute [b] discards [a]. *)
Definition os_path_join (a b : string) : string :=
  if startswith b "/" then b
  else if endswith a "/" || String.eqb a "" then a ++ b
  else a ++ "/" ++ b.

End py.

(** ** The part of pandas the client uses

    A column is a [Series] with a dtype; a table keeps its columns in
    order, by label, and labels may repeat, as pandas allows.  Columns of
    int64, of bool and of dtype object are modelled; an object column
    holds str entries and may also hold int entries and missing ones
    (None, NaN). *)

Module pd.

Inductive Dtype : Type := object | int64 | bool_.

(** An entry of an object column: a str, an int, or a missing value. *)
Inductive Cell : Type :=
| CStr (s : string)
| CInt (z : Z)
| CNone.

(** [StrSeries] is the object column all of whose entries are str;
    [ObjSeries] is an object column in general. *)
Inductive Series : Type :=
| StrSeries (values : list string)
| IntSeries (values : list Z)
| BoolSeries (values : list bool)
| ObjSeries (values : list Cell).

Definition dtype (s : Series) : Dtype :=
  match s with
  | StrSeries _ => object
  | IntSeries _ => int64
  | BoolSeries _ => bool_
  | ObjSeries _ => object
  end.

Definition is_missing (c : Cell) : bool :=
  match c with CNone => true | _ => false end.

Definition is_int (c : Cell) : bool :=
  match c with CInt _ => true | _ => false end.

(** An entry as the str methods see it: a str, or nothing to work on. *)
Definition as_str (c : Cell) : option string :=
  match c with CStr s => Some s | _ => None end.

(** Whether an object column has the str accessor: pandas infers the
    kind of its entries with the missing ones left out, and refuses a
    column of integers only. *)
Definition str_accessible (values : list Cell) : bool :=
  match filter (fun c => negb (is_missing c)) values with
  | [] => true
  | present => negb (forallb is_int present)
  end.

(** [Index.unique]: each label once, in order of first appearance. *)
Fixpoint unique (l : list string) : list string :=
  match l with
  | [] => []
  | x :: l' => x :: filter (fun y => negb (String.eqb x y)) (unique l')
  end.

Record DataFrame : Type := {
  index : list Z;
  data : list (string * Series)
}.

Definition columns (df : DataFrame) : list string := map fst (data df).

Definition labelled (key : string) (c : string * Series) : bool :=
  String.eqb (fst c) key.

(** What [df[key]] evaluates to for a scalar key: the column, or the
    sub-table of all columns carrying that label when it repeats. *)
Inductive Selection : Type :=
| SelSeries (s : Series)
| SelFrame (df : DataFrame).

Definition getitem (df : DataFrame) (key : string) : Result Selection :=
  match filter (labelled key) (data df) with
  | [] => Raise (KeyError [key])
  | [c] => OK (SelSeries (snd c))
  | cs => OK (SelFrame {| index := index df; data := cs |})
  end.

(** [df[names]] for a list of labels: every label must exist (else
    KeyError with the missing ones, each once); the result takes, for
    each requested label in turn, the columns carrying it, and keeps the
    index. *)
Definition getitem_list (df : DataFrame) (names : list string)
  : Result DataFrame :=
  match unique (filter (fun n => negb (py.contains n (columns df))) names) with
  | [] => OK {| index := index df;
                data := flat_map (fun n => filter (labelled n) (data df)) names |}
  | missing => Raise (KeyError missing)
  end.

(** [df[key] = s]: replaces the column (every column) labelled [key],
    in place; a new label is appended as the last column. *)
Definition setitem (df : DataFrame) (key : string) (s : Series) : DataFrame :=
  {| index := index df;
     data := if py.contains key (columns df)
             then map (fun c => if labelled key c then (fst c, s) else c)
                      (data df)
             else (data df ++ [(key, s)])%list |}.

(** [x.str]: only a Series of strings has the accessor; it gives the
    entries as the str methods see them. *)
Definition str (x : Selection) : Result (list (option string)) :=
  match x with
  | SelSeries (StrSeries v) => OK (map Some v)
  | SelSeries (ObjSeries v) =>
      if str_accessible v then OK (map as_str v)
      else Raise (AttributeError
                    "Can only use .str accessor with string values!")
  | SelSeries _ =>
      Raise (AttributeError "Can only use .str accessor with string values!")
  | SelFrame _ =>
      Raise (AttributeError "'DataFrame' object has no attribute 'str'")
  end.

(** [x.str.startswith(pre)], element-wise: an entry that is not a str
    gives NaN (here [None]). *)
Definition str_startswith (v : list (option string)) (pre : string)
  : list (option bool) :=
  map (option_map (fun s => py.startswith s pre)) v.

(** [.all()] leaves NaN out: only a False entry makes it False. *)
Definition all (v : list (option bool)) : bool :=
  forallb (fun b => match b with Some false => false | _ => true end) v.

(** [pd.api.types.is_integer_dtype]: true for integer columns, false for
    bool and object ones and for anything that has no dtype. *)
Definition is_integer_dtype (x : Selection) : bool :=
  match x with
  | SelSeries s => match dtype s with int64 => true | _ => false end
  | SelFrame _ => false
  end.

End pd.

(** ** tfrutil.constants *)

Module constants.

(** Modelled from the spec: [tfrutil/constants.py] is not among the
    sources; the spec names the image-location column image_uri. *)
Definition IMAGE_URI_KEY : string := "image_uri".

(** Modelled from the spec: the label column is named label. *)
Definition LABEL_KEY : string := "label".

(** Modelled from the spec: the split column is named split. *)
Definition SPLIT_KEY : string := "split".

(** Modelled from the spec: the fixed canonical column list is
    image_uri, label, split, in that exact order. *)
Definition IMAGE_CSV_COLUMNS : list string :=
  [IMAGE_URI_KEY; LABEL_KEY; SPLIT_KEY].

End constants.

(** ** Validation *)

Definition _validate_data (df : pd.DataFrame) : Result unit :=
  if negb (py.contains constants.IMAGE_URI_KEY (pd.columns df)) then
    Raise (AttributeError "Dataframe must contain image_uri column {}.")
  else if negb (py.contains constants.LABEL_KEY (pd.columns df)) then
    Raise (AttributeError "Dataframe must contain label column.")
  else if negb (py.contains constants.SPLIT_KEY (pd.columns df)) then
    Raise (AttributeError "Dataframe must contain split column.")
  else if negb (py.list_eqb (pd.columns df) constants.IMAGE_CSV_COLUMNS) then
    Raise (AttributeError ("Dataframe column order must be "
                           ++ py.repr_list constants.IMAGE_CSV_COLUMNS))
  else OK tt.

Definition _validate_runner (df : pd.DataFrame) (runner : string)
    (project region : option string) : Result unit :=
  if negb (py.contains runner ["DataFlowRunner"; "DirectRunner"]) then
    Raise (AttributeError ("Runner " ++ runner ++ " is not supported."))
  else
    col <- pd.getitem df constants.IMAGE_URI_KEY ;;
    uris <- pd.str col ;;
    let gcs_path := pd.all (pd.str_startswith uris "gs://") in
    if String.eqb runner "DataFlowRunner" && negb gcs_path then
      Raise (AttributeError "DataFlowRunner requires GCS image locations.")
    else if String.eqb runner "DataFlowRunner"
            && existsb (fun v => negb (py.truthy v)) [project; region] then
      Raise (AttributeError
               ("DataFlowRunner requires project region and region "
                ++ "project is " ++ py.str_opt project
                ++ " and region is " ++ py.str_opt region))
    else OK tt.

(** ** Input normalisation *)

(** The [header] argument: ['infer'], [None], a row number or a list of
    row numbers. *)
Inductive Header : Type :=
| HInfer
| HNone
| HRow (n : Z)
| HRows (ns : list Z).

Definition header_is_None (h : Header) : bool :=
  match h with HNone => true | _ => false end.

(** What a caller may pass as [input_data]: a table, a str, or any other
    object, of which only the name of its type is observed. *)
Inductive InputData : Type :=
| InDataFrame (df : pd.DataFrame)
| InStr (s : string)
| InOther (type_name : string).

Definition _is_directory {A : Type} (input_data : A) : bool := false.

Section Normalizer.

(** Reading a file is done by collaborators: [tf.io.gfile.GFile] opens
    the path, [pd.read_csv] parses what was opened. *)
Variable File : Type.
Variable GFile : string -> Result File.
Variable pd_read_csv :
  File -> option (list string) -> Header -> Result pd.DataFrame.

Definition read_csv (csv_file : string) (header : Header)
    (names : option (list string)) : Result pd.DataFrame :=
  let names :=
    if header_is_None header && negb (py.truthy_seq names)
    then Some constants.IMAGE_CSV_COLUMNS
    else names in
  f <- GFile csv_file ;;
  pd_read_csv f names header.

Definition to_dataframe (input_data : InputData) (header : Header)
    (names : option (list string)) : Result pd.DataFrame :=
  match input_data with
  | InDataFrame df =>
      match names with
      | Some (n :: ns) => pd.getitem_list df (n :: ns)
      | _ => OK df
      end
  | InStr s =>
      if py.endswith s ".csv" then read_csv s header names
      else if _is_directory s then Raise NotImplementedError
      else Raise (ValueError "Unsupported `input_data`: <class 'str'>")
  | InOther type_name =>
      Raise (ValueError ("Unsupported `input_data`: <class '"
                         ++ type_name ++ "'>"))
  end.

End Normalizer.

Arguments read_csv {File} GFile pd_read_csv csv_file header names.
Arguments to_dataframe {File} GFile pd_read_csv input_data header names.

(** ** Dispatch *)

(** The keyword arguments [create_tfrecords] hands to
    [beam_pipeline.build_pipeline] next to the table. *)
Record PipelineArgs : Type := {
  job_label : string;
  runner : string;
  project : option string;
  region : option string;
  output_dir : string;
  compression : option string;
  num_shards : Z;
  dataflow_options : option (list (string * string));
  integer_label : bool
}.

(** The job handle, seen through the two calls made on it: what
    [p.run()] does, and what [result.wait_until_finish()] does then. *)
Inductive JobState : Type := DONE | FAILED | CANCELLED.

Record PipelineResult : Type := {
  wait_until_finish : Result JobState
}.

Record Pipeline : Type := {
  run : Result PipelineResult
}.

Inductive Event : Type :=
| Call_to_dataframe
| Call_validate_data
| Call_validate_runner
| logging_basicConfig (filename : string) (level : Z)
| logging_setLevel (logger : string) (level : Z)
| Call_build_pipeline (df : pd.DataFrame) (args : PipelineArgs)
| Call_run
| Call_wait_until_finish
| logging_shutdown
| os_path_exists (path : string).

Definition logging_ERROR : Z := 40.

(** A call that has no effect of its own to record. *)
Definition quiet {A} (r : Result A) : Traced Event A := ([], r).

Definition is_open (ev : Event) : bool :=
  match ev with logging_basicConfig _ _ => true | _ => false end.

Definition is_close (ev : Event) : bool :=
  match ev with logging_shutdown => true | _ => false end.

Definition is_submit (ev : Event) : bool :=
  match ev with
  | Call_build_pipeline _ _ | Call_run | Call_wait_until_finish => true
  | _ => false
  end.

Definition count (p : Event -> bool) (t : list Event) : nat :=
  List.length (filter p t).

(** The [build_pipeline] calls of a trace, with their arguments. *)
Fixpoint build_calls (t : list Event) : list (pd.DataFrame * PipelineArgs) :=
  match t with
  | [] => []
  | Call_build_pipeline df args :: t' => (df, args) :: build_calls t'
  | _ :: t' => build_calls t'
  end.

Section Dispatcher.

Variable File : Type.
Variable GFile : string -> Result File.
Variable pd_read_csv :
  File -> option (list string) -> Header -> Result pd.DataFrame.

(** [constants.LOGFILE] and [constants.LOGLEVEL]: their values are not
    fixed by anything the client does with them. *)
Variable LOGFILE : string.
Variable LOGLEVEL : Z.

(** [beam_pipeline.build_pipeline], the external collaborator. *)
Variable build_pipeline : pd.DataFrame -> PipelineArgs -> Result Pipeline.

Definition create_tfrecords
    (input_data : InputData)
    (output_dir : string)
    (header : Header)
    (names : option (list string))
    (runner : string)
    (project region : option string)
    (dataflow_options : option (list (string * string)))
    (job_label : string)
    (compression : option string)
    (num_shards : Z) : Traced Event unit :=
  df <- lift Call_to_dataframe
          (to_dataframe GFile pd_read_csv input_data header names) ;;
  lift Call_validate_data (_validate_data df) ;;;
  lift Call_validate_runner (_validate_runner df runner project region) ;;;
  let logfile := py.os_path_join "/tmp" LOGFILE in
  emit (logging_basicConfig logfile LOGLEVEL) ;;;
  emit (logging_setLevel "tensorflow" logging_ERROR) ;;;
  label <- quiet (pd.getitem df constants.LABEL_KEY) ;;
  let integer_label := pd.is_integer_dtype label in
  let args := {| job_label := job_label;
                 runner := runner;
                 project := project;
                 region := region;
                 output_dir := output_dir;
                 compression := compression;
                 num_shards := num_shards;
                 dataflow_options := dataflow_options;
                 integer_label := integer_label |} in
  p <- lift (Call_build_pipeline df args) (build_pipeline df args) ;;
  result <- lift Call_run (run p) ;;
  lift Call_wait_until_finish (wait_until_finish result) ;;;
  emit logging_shutdown ;;;
  emit (os_path_exists logfile) ;;;
  ret tt.

End Dispatcher.

Arguments create_tfrecords {File} GFile pd_read_csv LOGFILE LOGLEVEL
  build_pipeline input_data output_dir header names runner project region
  dataflow_options job_label compression num_shards.

(** ** Concrete collaborators

    A small world to run the client in: one CSV file of three rows, a
    reader that labels its columns with the names it is given, and
    pipelines that finish, fail to start or fail while running. *)

Module Scenario.

Definition File : Type := list (list string).

Definition GFile (path : string) : Result File :=
  if String.eqb path "labels.csv" then
    OK [["gs://b/1.jpg"; "cat"; "train"];
        ["gs://b/2.jpg"; "dog"; "train"];
        ["gs://b/3.jpg"; "cat"; "test"]]
  else Raise (ExternalError "NotFoundError").

Fixpoint cells_from (j : nat) (names : list string) (rows : File)
  : list (string * pd.Series) :=
  match names with
  | [] => []
  | n :: names' =>
      (n, pd.StrSeries (map (fun r => nth j r "") rows))
        :: cells_from (S j) names' rows
  end.

Definition pd_read_csv (f : File) (names : option (list string))
    (header : Header) : Result pd.DataFrame :=
  match names, header with
  | Some ns, HNone =>
      OK {| pd.index := map Z.of_nat (seq 0 (List.length f));
            pd.data := cells_from 0 ns f |}
  | Some ns, _ =>
      OK {| pd.index := map Z.of_nat (seq 0 (List.length (tl f)));
            pd.data := cells_from 0 ns (tl f) |}
  | None, HNone =>
      Raise (ExternalError "positional column labels are not modelled")
  | None, _ =>
      OK {| pd.index := map Z.of_nat (seq 0 (List.length (tl f)));
            pd.data := cells_from 0 (hd [] f) (tl f) |}
  end.

(** [os.path.isdir] of this world: one directory of images. *)
Definition isdir (path : string) : bool := String.eqb path "/data/images".

Definition finishing : Pipeline :=
  {| run := OK {| wait_until_finish := OK DONE |} |}.


Definition failing_while_running : Pipeline :=
  {| run := OK {| wait_until_finish :=
                    Raise (ExternalError "pipeline execution failed") |} |}.

(** A job that ends in the FAILED state without raising. *)
Definition ending_failed : Pipeline :=
  {| run := OK {| wait_until_finish := OK FAILED |} |}.

Definition build_ending_failed (_ : pd.DataFrame) (_ : PipelineArgs)
  : Result Pipeline := OK ending_failed.

Definition build_finishing (_ : pd.DataFrame) (_ : PipelineArgs)
  : Result Pipeline := OK finishing.


Definition build_failing_while_running (_ : pd.DataFrame) (_ : PipelineArgs)
  : Result Pipeline := OK failing_while_running.

Definition LOGFILE : string := "tfrutil.log".
Definition LOGLEVEL : Z := 20.

(** Scenario table of the spec: one remote image, labelled by a str. *)
Definition one_cat : pd.DataFrame :=
  {| pd.index := [0%Z];
     pd.data := [("image_uri", pd.StrSeries ["gs://b/1.jpg"]);
                 ("label", pd.StrSeries ["cat"]);
                 ("split", pd.StrSeries ["train"])] |}.

(** Two rows, integer labels, the second image on the local disk. *)
Definition mixed_locations : pd.DataFrame :=
  {| pd.index := [0%Z; 1%Z];
     pd.data := [("image_uri", pd.StrSeries ["gs://b/1.jpg"; "/tmp/2.jpg"]);
                 ("label", pd.IntSeries [0%Z; 1%Z]);
                 ("split", pd.StrSeries ["train"; "test"])] |}.

(** The image-location column renamed to uri. *)
Definition renamed : pd.DataFrame :=
  {| pd.index := [0%Z];
     pd.data := [("uri", pd.StrSeries ["gs://b/1.jpg"]);
                 ("label", pd.StrSeries ["cat"]);
                 ("split", pd.StrSeries ["train"])] |}.


(** The canonical columns out of order, local images, and a caption
    column on top. *)
Definition reordered : pd.DataFrame :=
  {| pd.index := [0%Z; 1%Z];
     pd.data := [("label", pd.IntSeries [3%Z; 4%Z]);
                 ("caption", pd.StrSeries ["a cat"; "a dog"]);
                 ("split", pd.StrSeries ["train"; "test"]);
                 ("image_uri", pd.StrSeries ["/tmp/1.jpg"; "/tmp/2.jpg"])] |}.

(** Image locations given as numbers. *)
Definition numbered_images : pd.DataFrame :=
  {| pd.index := [0%Z];
     pd.data := [("image_uri", pd.IntSeries [1%Z]);
                 ("label", pd.StrSeries ["cat"]);
                 ("split", pd.StrSeries ["train"])] |}.

(** Two rows, the image location of the second one missing (None). *)
Definition missing_location : pd.DataFrame :=
  {| pd.index := [0%Z; 1%Z];
     pd.data := [("image_uri", pd.ObjSeries [pd.CStr "gs://b/1.jpg"; pd.CNone]);
                 ("label", pd.StrSeries ["cat"; "dog"]);
                 ("split", pd.StrSeries ["train"; "train"])] |}.

(** Two rows, the image location of the second one the number 5. *)
Definition number_among_locations : pd.DataFrame :=
  {| pd.index := [0%Z; 1%Z];
     pd.data := [("image_uri",
                  pd.ObjSeries [pd.CStr "gs://b/1.jpg"; pd.CInt 5]);
                 ("label", pd.StrSeries ["cat"; "dog"]);
                 ("split", pd.StrSeries ["train"; "train"])] |}.

(** [pd.DataFrame(columns=IMAGE_CSV_COLUMNS)]: no rows. *)
Definition empty_table : pd.DataFrame :=
  {| pd.index := [];
     pd.data := [("image_uri", pd.StrSeries []);
                 ("label", pd.StrSeries []);
                 ("split", pd.StrSeries [])] |}.

Definition create (build : pd.DataFrame -> PipelineArgs -> Result Pipeline)
    (input_data : InputData) (names : option (list string))
    (runner : string) (project region : option string)
  : Traced Event unit :=
  create_tfrecords GFile pd_read_csv LOGFILE LOGLEVEL build
    input_data "/out" HInfer names runner project region None
    "create-tfrecords" (Some "gzip") 0.

End Scenario.


(** ** Vocabulary of the properties *)

(** The messages [_validate_data] can raise with. *)
Definition validate_data_messages : list string :=
  ["Dataframe must contain image_uri column {}.";
   "Dataframe must contain label column.";
   "Dataframe must contain split column.";
   "Dataframe column order must be ['image_uri', 'label', 'split']"].

(** Whether normalisation and both validations go through. *)
Definition validations_pass {File : Type} (GFile : string -> Result File)
    (pd_read_csv : File -> option (list string) -> Header
                   -> Result pd.DataFrame)
    (input_data : InputData) (header : Header) (names : option (list string))
    (runner : string) (project region : option string) : bool :=
  match to_dataframe GFile pd_read_csv input_data header names with
  | OK df =>
      is_ok (_validate_data df)
      && is_ok (_validate_runner df runner project region)
  | Raise _ => false
  end.

(** The calls every validated invocation starts with. *)
Definition validated_prefix (LOGFILE : string) (LOGLEVEL : Z) : list Event :=
  [Call_to_dataframe; Call_validate_data; Call_validate_runner;
   logging_basicConfig (py.os_path_join "/tmp" LOGFILE) LOGLEVEL;
   logging_setLevel "tensorflow" logging_ERROR].

(** What the client relies on from [pd.read_csv] when it is given column
    names and no header row: the table it returns carries those names. *)
Definition names_label_columns {File : Type}
    (pd_read_csv : File -> option (list string) -> Header
                   -> Result pd.DataFrame) : Prop :=
  forall f ns df,
    pd_read_csv f (Some ns) HNone = OK df -> pd.columns df = ns.




(** How many columns of a table carry a label. *)
Definition label_count (df : pd.DataFrame) (n : string) : nat :=
  List.length (filter (pd.labelled n) (pd.data df)).

(** Whether a str is a remote-storage location. *)
Definition is_gcs (uri : string) : bool := py.startswith uri "gs://".

(** Whether an entry of the image-location column is a str that starts
    with gs://. *)
Definition starts_with_gcs (c : pd.Cell) : bool :=
  match c with pd.CStr s => is_gcs s | _ => false end.

(** * Properties *)

(** ** Helper lemmas *)

Lemma list_eqb_eq (l1 l2 : list string) :
  py.list_eqb l1 l2 = true <-> l1 = l2.
Proof.
  revert l2; induction l1 as [|x l1 IH]; intros [|y l2]; simpl;
    try (split; intro H; [discriminate H || reflexivity | discriminate H || reflexivity]).
  rewrite andb_true_iff, String.eqb_eq, IH.
  split; [intros [-> ->]; reflexivity | intros H; injection H; auto].
Qed.

Lemma list_eqb_neq (l1 l2 : list string) :
  py.list_eqb l1 l2 = false <-> l1 <> l2.
Proof.
  rewrite <- list_eqb_eq. destruct (py.list_eqb l1 l2); split; congruence.
Qed.

Lemma validate_data_ok_iff (df : pd.DataFrame) :
  _validate_data df = OK tt <-> pd.columns df = constants.IMAGE_CSV_COLUMNS.
Proof.
  unfold _validate_data. split.
  - intros H.
    destruct (py.list_eqb (pd.columns df) constants.IMAGE_CSV_COLUMNS) eqn:E.
    + now apply list_eqb_eq.
    + repeat match type of H with
             | (if ?b then _ else _) = _ => destruct b; try discriminate H
             end.
  - intros ->. reflexivity.
Qed.

(** A table that passes schema validation consists of exactly the three
    canonical columns. *)
Lemma validate_data_ok_inv (df : pd.DataFrame) :
  _validate_data df = OK tt ->
  exists a b c,
    pd.data df = [(constants.IMAGE_URI_KEY, a); (constants.LABEL_KEY, b);
                  (constants.SPLIT_KEY, c)].
Proof.
  rewrite validate_data_ok_iff. unfold pd.columns.
  destruct df as [idx d]; simpl.
  destruct d as [|[n1 a] [|[n2 b] [|[n3 c] [|? ?]]]]; simpl; try discriminate.
  intros H; injection H as -> -> ->. now exists a, b, c.
Qed.

Lemma validate_data_raises (df : pd.DataFrame) :
  pd.columns df <> constants.IMAGE_CSV_COLUMNS ->
  exists msg,
    _validate_data df = Raise (AttributeError msg)
    /\ In msg validate_data_messages.
Proof.
  intros H. apply list_eqb_neq in H.
  unfold _validate_data, validate_data_messages. rewrite H.
  destruct (py.contains constants.IMAGE_URI_KEY (pd.columns df));
    [|eexists; split; [reflexivity|simpl; auto]].
  destruct (py.contains constants.LABEL_KEY (pd.columns df));
    [|eexists; split; [reflexivity|simpl; auto]].
  destruct (py.contains constants.SPLIT_KEY (pd.columns df));
    eexists; (split; [reflexivity|simpl; auto 6]).
Qed.

Section DispatchProperties.

Variable File : Type.
Variable GFile : string -> Result File.
Variable pd_read_csv :
  File -> option (list string) -> Header -> Result pd.DataFrame.
Variables (LOGFILE : string) (LOGLEVEL : Z).
Variable build_pipeline : pd.DataFrame -> PipelineArgs -> Result Pipeline.

Variables (input_data : InputData) (output_dir : string) (header : Header)
  (names : option (list string)) (runner : string)
  (project region : option string)
  (dataflow_options : option (list (string * string)))
  (job_label : string) (compression : option string) (num_shards : Z).

Let invocation : Traced Event unit :=
  create_tfrecords GFile pd_read_csv LOGFILE LOGLEVEL build_pipeline
    input_data output_dir header names runner project region
    dataflow_options job_label compression num_shards.

Let normalized : Result pd.DataFrame :=
  to_dataframe GFile pd_read_csv input_data header names.

(** The arguments of the [build_pipeline] call, for a given flag. *)
Let args_with (flag : bool) : PipelineArgs :=
  Build_PipelineArgs job_label runner project region output_dir compression
    num_shards dataflow_options flag.

Lemma create_tfrecords_normalize_fails (e : Exception) :
  normalized = Raise e -> invocation = ([Call_to_dataframe], Raise e).
Proof.
  unfold normalized, invocation, create_tfrecords. intros ->. reflexivity.
Qed.

Lemma create_tfrecords_schema_fails (df : pd.DataFrame) (e : Exception) :
  normalized = OK df -> _validate_data df = Raise e ->
  invocation = ([Call_to_dataframe; Call_validate_data], Raise e).
Proof.
  unfold normalized, invocation, create_tfrecords. intros -> H.
  cbn. rewrite H. reflexivity.
Qed.

Lemma create_tfrecords_runner_fails (df : pd.DataFrame) (e : Exception) :
  normalized = OK df -> _validate_data df = OK tt ->
  _validate_runner df runner project region = Raise e ->
  invocation
  = ([Call_to_dataframe; Call_validate_data; Call_validate_runner], Raise e).
Proof.
  unfold normalized, invocation, create_tfrecords. intros -> H1 H2.
  cbn. rewrite H1. cbn. rewrite H2. reflexivity.
Qed.

(** After validation the invocation opens the log, builds the pipeline
    with the inferred flag, runs it and waits; it closes the log only
    when all three calls return. *)
Lemma create_tfrecords_validated (df : pd.DataFrame) :
  normalized = OK df -> _validate_data df = OK tt ->
  _validate_runner df runner project region = OK tt ->
  exists lbl,
    pd.getitem df constants.LABEL_KEY = OK (pd.SelSeries lbl) /\
    let args := args_with (pd.is_integer_dtype (pd.SelSeries lbl)) in
    let pre := (validated_prefix LOGFILE LOGLEVEL
                ++ [Call_build_pipeline df args])%list in
    invocation =
    match build_pipeline df args with
    | Raise e => (pre, Raise e)
    | OK p =>
        match run p with
        | Raise e => ((pre ++ [Call_run])%list, Raise e)
        | OK r =>
            match wait_until_finish r with
            | Raise e =>
                ((pre ++ [Call_run; Call_wait_until_finish])%list, Raise e)
            | OK _ =>
                ((pre ++ [Call_run; Call_wait_until_finish; logging_shutdown;
                          os_path_exists (py.os_path_join "/tmp" LOGFILE)])%list,
                 OK tt)
            end
        end
    end.
Proof.
  unfold normalized, invocation, create_tfrecords. intros -> H1 H2.
  destruct (validate_data_ok_inv df H1) as (a & b & c & Hd).
  exists b. split.
  - unfold pd.getitem. rewrite Hd. reflexivity.
  - cbn. rewrite H1. cbn. rewrite H2. cbn.
    unfold pd.getitem. rewrite Hd. cbn.
    destruct (build_pipeline _ _) as [p|e]; cbn; [|reflexivity].
    destruct (run p) as [r|e]; cbn; [|reflexivity].
    destruct (wait_until_finish r) as [s|e]; cbn; reflexivity.
Qed.

(** ** Claims on the dispatcher *)

(** C1: a table whose column list is not exactly image_uri, label, split
    (in that order) is rejected by [_validate_data] with one of its
    descriptive messages, and [create_tfrecords] then stops right after
    the schema check, with that error and without ever calling
    [build_pipeline]. *)
Theorem validate_data_rejects_other_columns (df : pd.DataFrame) :
  pd.columns df <> constants.IMAGE_CSV_COLUMNS ->
  (exists msg,
      _validate_data df = Raise (AttributeError msg)
      /\ In msg validate_data_messages)
  /\ (normalized = OK df ->
      exists e,
        _validate_data df = Raise e
        /\ invocation = ([Call_to_dataframe; Call_validate_data], Raise e)
        /\ build_calls (fst invocation) = []
        /\ count is_submit (fst invocation) = 0).
Proof.
  intros H. destruct (validate_data_raises df H) as (msg & Hr & Hin).
  split; [now exists msg|].
  intros Hn. exists (AttributeError msg). split; [exact Hr|].
  rewrite (create_tfrecords_schema_fails df _ Hn Hr). auto.
Qed.

(** C4: [create_tfrecords] normalises, then checks the schema, then the
    runner policy, in that order; the first of them that raises ends the
    invocation with its error, and nothing is built, run or awaited. *)
Theorem create_tfrecords_validates_in_order :
  match normalized with
  | Raise e => invocation = ([Call_to_dataframe], Raise e)
  | OK df =>
      match _validate_data df with
      | Raise e =>
          invocation = ([Call_to_dataframe; Call_validate_data], Raise e)
      | OK _ =>
          match _validate_runner df runner project region with
          | Raise e =>
              invocation
              = ([Call_to_dataframe; Call_validate_data;
                  Call_validate_runner], Raise e)
          | OK _ =>
              exists flag rest,
                fst invocation
                = (validated_prefix LOGFILE LOGLEVEL
                   ++ Call_build_pipeline df (args_with flag) :: rest)%list
          end
      end
  end
  /\ (validations_pass GFile pd_read_csv input_data header names
                       runner project region = false ->
      raises (snd invocation)
      /\ count is_submit (fst invocation) = 0
      /\ count is_open (fst invocation) = 0).
Proof.
  unfold validations_pass. fold normalized.
  destruct normalized as [df|e] eqn:Hn.
  - destruct (_validate_data df) as [[]|e] eqn:H1.
    + destruct (_validate_runner df runner project region) as [[]|e] eqn:H2.
      * split; [|discriminate].
        destruct (create_tfrecords_validated df Hn H1 H2) as (lbl & _ & ->).
        exists (pd.is_integer_dtype (pd.SelSeries lbl)).
        destruct (build_pipeline _ _) as [p|e]; [|now exists []].
        destruct (run p) as [r|e]; [|now eexists].
        destruct (wait_until_finish r) as [s|e]; now eexists.
      * rewrite (create_tfrecords_runner_fails df _ Hn H1 H2).
        split; [reflexivity|]. intros _. split; [now exists e|auto].
    + rewrite (create_tfrecords_schema_fails df _ Hn H1).
      split; [reflexivity|]. intros _. split; [now exists e|auto].
  - rewrite (create_tfrecords_normalize_fails _ Hn).
    split; [reflexivity|]. intros _. split; [now exists e|auto].
Qed.


(** C9: once a table is validated, [create_tfrecords] calls
    [build_pipeline] exactly once, on that table, and the integer_label
    argument it passes is true exactly when the dtype of the label
    column is an integer dtype. *)
Theorem create_tfrecords_integer_label (df : pd.DataFrame) :
  normalized = OK df ->
  _validate_data df = OK tt ->
  _validate_runner df runner project region = OK tt ->
  exists lbl,
    pd.getitem df constants.LABEL_KEY = OK (pd.SelSeries lbl)
    /\ build_calls (fst invocation)
       = [(df, args_with (pd.is_integer_dtype (pd.SelSeries lbl)))]
    /\ (pd.is_integer_dtype (pd.SelSeries lbl) = true
        <-> pd.dtype lbl = pd.int64).
Proof.
  intros Hn H1 H2.
  destruct (create_tfrecords_validated df Hn H1 H2) as (lbl & Hl & ->).
  exists lbl. split; [exact Hl|]. split.
  - destruct (build_pipeline _ _) as [p|e]; [|reflexivity].
    destruct (run p) as [r|e]; [|reflexivity].
    destruct (wait_until_finish r) as [s|e]; reflexivity.
  - simpl. destruct lbl; simpl; split; congruence.
Qed.

End DispatchProperties.

(** ** Claims on the runner policy *)

Lemma all_startswith (uris : list string) :
  pd.all (pd.str_startswith (map Some uris) "gs://") = forallb is_gcs uris.
Proof.
  unfold pd.all, pd.str_startswith, is_gcs.
  induction uris as [|u uris IH]; simpl; [reflexivity|].
  rewrite IH. now destruct (py.startswith u "gs://").
Qed.

Lemma forallb_false_exists (uris : list string) :
  forallb is_gcs uris = false <-> exists u, In u uris /\ is_gcs u = false.
Proof.
  induction uris as [|u uris IH]; simpl.
  - split; [discriminate|intros (? & [] & _)].
  - rewrite andb_false_iff, IH. split.
    + intros [H|(v & Hv & Hf)]; [exists u; auto|exists v; auto].
    + intros (v & [<-|Hv] & Hf); [auto|right; exists v; auto].
Qed.

Lemma truthy_false (v : option string) :
  py.truthy v = false <-> v = None \/ v = Some "".
Proof.
  destruct v as [s|]; simpl.
  - rewrite negb_false_iff, String.eqb_eq.
    split; [intros ->; auto|intros [H|H]; congruence].
  - split; auto.
Qed.

Lemma truthy_nonempty (s : string) : s <> "" -> py.truthy (Some s) = true.
Proof.
  intros H. simpl. apply negb_true_iff. now apply String.eqb_neq.
Qed.

(** What the policy does under the distributed runner, once the
    image-location column is known to be a column of str. *)
Lemma validate_runner_dataflow (df : pd.DataFrame) (uris : list string)
    (project region : option string) :
  pd.getitem df constants.IMAGE_URI_KEY
  = OK (pd.SelSeries (pd.StrSeries uris)) ->
  _validate_runner df "DataFlowRunner" project region
  = if negb (forallb is_gcs uris) then
      Raise (AttributeError "DataFlowRunner requires GCS image locations.")
    else if negb (py.truthy project) || negb (py.truthy region) then
      Raise (AttributeError
               ("DataFlowRunner requires project region and region "
                ++ "project is " ++ py.str_opt project
                ++ " and region is " ++ py.str_opt region))
    else OK tt.
Proof.
  intros H. unfold _validate_runner.
  change (py.contains "DataFlowRunner" ["DataFlowRunner"; "DirectRunner"])
    with true.
  cbn [negb bind Result_Monad]. rewrite H. cbn [pd.str].
  rewrite all_startswith.
  change (String.eqb "DataFlowRunner" "DataFlowRunner") with true.
  cbn [andb existsb]. rewrite orb_false_r. reflexivity.
Qed.

Lemma getitem_setitem_image_uri (df : pd.DataFrame) (s : pd.Series) :
  _validate_data df = OK tt ->
  pd.getitem (pd.setitem df constants.IMAGE_URI_KEY s) constants.IMAGE_URI_KEY
  = OK (pd.SelSeries s)
  /\ _validate_data (pd.setitem df constants.IMAGE_URI_KEY s) = OK tt.
Proof.
  intros H. destruct (validate_data_ok_inv df H) as (a & b & c & Hd).
  destruct df as [idx d]. simpl in Hd. subst d. split; reflexivity.
Qed.

(** On a schema-valid table whose image locations are all str, with the
    distributed runner and non-empty project and region, the runner
    policy raises exactly when some location does not start with gs://;
    replacing the one offending location by a gs:// one makes it pass. *)
Lemma validate_runner_dataflow_requires_gcs
    (df : pd.DataFrame) (uris : list string) (p r : string) :
  _validate_data df = OK tt ->
  pd.getitem df constants.IMAGE_URI_KEY
  = OK (pd.SelSeries (pd.StrSeries uris)) ->
  p <> "" -> r <> "" ->
  (raises (_validate_runner df "DataFlowRunner" (Some p) (Some r))
   <-> exists u, In u uris /\ is_gcs u = false)
  /\ (forall before bad after good,
        uris = (before ++ bad :: after)%list ->
        forallb is_gcs (before ++ after) = true ->
        is_gcs bad = false -> is_gcs good = true ->
        _validate_runner df "DataFlowRunner" (Some p) (Some r)
        = Raise (AttributeError
                   "DataFlowRunner requires GCS image locations.")
        /\ _validate_runner
             (pd.setitem df constants.IMAGE_URI_KEY
                (pd.StrSeries (before ++ good :: after)))
             "DataFlowRunner" (Some p) (Some r)
           = OK tt).
Proof.
  intros Hv Hg Hp Hr. split.
  - rewrite (validate_runner_dataflow df uris _ _ Hg).
    rewrite (truthy_nonempty p Hp), (truthy_nonempty r Hr).
    rewrite <- forallb_false_exists.
    destruct (forallb is_gcs uris); simpl; split.
    + intros [e He]; discriminate He.
    + discriminate.
    + reflexivity.
    + intros _. eexists; reflexivity.
  - intros before bad after good -> Hall Hbad Hgood.
    rewrite forallb_app in Hall. apply andb_true_iff in Hall as [Hb Ha].
    split.
    + rewrite (validate_runner_dataflow df _ _ _ Hg).
      rewrite forallb_app. cbn [forallb]. rewrite Hb, Hbad. reflexivity.
    + destruct (getitem_setitem_image_uri df
                  (pd.StrSeries (before ++ good :: after)) Hv) as [Hg' _].
      rewrite (validate_runner_dataflow _ _ _ _ Hg').
      rewrite (truthy_nonempty p Hp), (truthy_nonempty r Hr).
      rewrite forallb_app. cbn [forallb]. rewrite Hb, Hgood, Ha.
      reflexivity.
Qed.

(** What the policy does under the distributed runner on any column
    that has the str accessor. *)
Lemma validate_runner_dataflow_entries (df : pd.DataFrame)
    (sel : pd.Selection) (entries : list (option string))
    (project region : option string) :
  pd.getitem df constants.IMAGE_URI_KEY = OK sel ->
  pd.str sel = OK entries ->
  _validate_runner df "DataFlowRunner" project region
  = if negb (pd.all (pd.str_startswith entries "gs://")) then
      Raise (AttributeError "DataFlowRunner requires GCS image locations.")
    else if negb (py.truthy project) || negb (py.truthy region) then
      Raise (AttributeError
               ("DataFlowRunner requires project region and region "
                ++ "project is " ++ py.str_opt project
                ++ " and region is " ++ py.str_opt region))
    else OK tt.
Proof.
  intros Hg Hs. unfold _validate_runner.
  change (py.contains "DataFlowRunner" ["DataFlowRunner"; "DirectRunner"])
    with true.
  cbn [negb bind Result_Monad]. rewrite Hg, Hs.
  change (String.eqb "DataFlowRunner" "DataFlowRunner") with true.
  cbn [andb existsb]. rewrite orb_false_r. reflexivity.
Qed.

(** C2, where the code departs from it: a schema-valid table whose
    image_uri column holds gs://b/1.jpg and a missing value, or
    gs://b/1.jpg and the number 5, has a value that does not start with
    gs://, and yet passes the runner policy under DataFlowRunner with
    project and region given: entries that are not str are left out of
    the all-locations check. *)
Theorem validate_runner_skips_non_str_locations :
  (_validate_data Scenario.missing_location = OK tt
   /\ pd.getitem Scenario.missing_location constants.IMAGE_URI_KEY
      = OK (pd.SelSeries (pd.ObjSeries [pd.CStr "gs://b/1.jpg"; pd.CNone]))
   /\ existsb (fun c => negb (starts_with_gcs c))
        [pd.CStr "gs://b/1.jpg"; pd.CNone] = true
   /\ _validate_runner Scenario.missing_location "DataFlowRunner"
        (Some "my-project") (Some "us-central1") = OK tt)
  /\ (_validate_data Scenario.number_among_locations = OK tt
      /\ pd.getitem Scenario.number_among_locations constants.IMAGE_URI_KEY
         = OK (pd.SelSeries
                 (pd.ObjSeries [pd.CStr "gs://b/1.jpg"; pd.CInt 5]))
      /\ existsb (fun c => negb (starts_with_gcs c))
           [pd.CStr "gs://b/1.jpg"; pd.CInt 5] = true
      /\ _validate_runner Scenario.number_among_locations "DataFlowRunner"
           (Some "my-project") (Some "us-central1") = OK tt).
Proof.
  repeat split; reflexivity.
Qed.

(** C3: on a schema-valid table whose image locations all start with
    gs://, with the distributed runner, the runner policy raises exactly
    when the project or the region is None or the empty str; with both
    non-empty it passes. *)
Theorem validate_runner_dataflow_requires_project_region
    (df : pd.DataFrame) (uris : list string) (project region : option string) :
  _validate_data df = OK tt ->
  pd.getitem df constants.IMAGE_URI_KEY
  = OK (pd.SelSeries (pd.StrSeries uris)) ->
  forallb is_gcs uris = true ->
  (raises (_validate_runner df "DataFlowRunner" project region)
   <-> project = None \/ project = Some ""
       \/ region = None \/ region = Some "")
  /\ (forall p r, p <> "" -> r <> "" ->
        _validate_runner df "DataFlowRunner" (Some p) (Some r) = OK tt).
Proof.
  intros _ Hg Hall. split.
  - rewrite (validate_runner_dataflow df uris _ _ Hg), Hall.
    cbn [negb].
    assert (E : (project = None \/ project = Some ""
                 \/ region = None \/ region = Some "")
                <-> negb (py.truthy project) || negb (py.truthy region)
                    = true).
    { rewrite orb_true_iff, !negb_true_iff, !truthy_false. tauto. }
    rewrite E.
    destruct (negb (py.truthy project) || negb (py.truthy region)); split.
    + reflexivity.
    + intros _. eexists; reflexivity.
    + intros [e He]; discriminate He.
    + discriminate.
  - intros p r Hp Hr.
    rewrite (validate_runner_dataflow df uris _ _ Hg), Hall.
    rewrite (truthy_nonempty p Hp), (truthy_nonempty r Hr). reflexivity.
Qed.

(** C10: a table with the canonical columns and no rows passes the
    runner policy under the distributed runner with non-empty project
    and region - the check on the image locations holds vacuously - and
    [create_tfrecords] goes on to build the pipeline on it. *)
Theorem validate_runner_accepts_empty_table
    (File : Type) (GFile : string -> Result File)
    (pd_read_csv : File -> option (list string) -> Header
                   -> Result pd.DataFrame)
    (LOGFILE : string) (LOGLEVEL : Z)
    (build_pipeline : pd.DataFrame -> PipelineArgs -> Result Pipeline)
    (output_dir : string) (header : Header)
    (dataflow_options : option (list (string * string)))
    (job_label : string) (compression : option string) (num_shards : Z)
    (df : pd.DataFrame) (p r : string) :
  pd.columns df = constants.IMAGE_CSV_COLUMNS ->
  pd.getitem df constants.IMAGE_URI_KEY
  = OK (pd.SelSeries (pd.StrSeries [])) ->
  p <> "" -> r <> "" ->
  _validate_runner df "DataFlowRunner" (Some p) (Some r) = OK tt
  /\ exists args,
       build_calls
         (fst (create_tfrecords GFile pd_read_csv LOGFILE LOGLEVEL
                 build_pipeline (InDataFrame df) output_dir header None
                 "DataFlowRunner" (Some p) (Some r) dataflow_options
                 job_label compression num_shards))
       = [(df, args)].
Proof.
  intros Hc Hg Hp Hr.
  assert (Hrun : _validate_runner df "DataFlowRunner" (Some p) (Some r)
                 = OK tt).
  { rewrite (validate_runner_dataflow df [] _ _ Hg).
    rewrite (truthy_nonempty p Hp), (truthy_nonempty r Hr). reflexivity. }
  split; [exact Hrun|].
  apply validate_data_ok_iff in Hc.
  destruct (create_tfrecords_validated File GFile pd_read_csv LOGFILE LOGLEVEL
              build_pipeline (InDataFrame df) output_dir header None
              "DataFlowRunner" (Some p) (Some r) dataflow_options job_label
              compression num_shards df eq_refl Hc Hrun)
    as (lbl & _ & ->).
  eexists.
  destruct (build_pipeline _ _) as [pl|e]; [|reflexivity].
  destruct (run pl) as [res|e]; [|reflexivity].
  destruct (wait_until_finish res) as [s|e]; reflexivity.
Qed.

(** ** Claims on the normaliser *)

(** C5, as the code has it: [_is_directory] answers False for every
    input, so a str that does not end in .csv - whether or not it names
    a directory - is refused as unsupported input, with ValueError; the
    not-implemented branch is never taken. *)
Theorem to_dataframe_non_csv_str_unsupported
    (File : Type) (GFile : string -> Result File)
    (pd_read_csv : File -> option (list string) -> Header
                   -> Result pd.DataFrame)
    (s : string) (header : Header) (names : option (list string)) :
  py.endswith s ".csv" = false ->
  _is_directory s = false
  /\ to_dataframe GFile pd_read_csv (InStr s) header names
     = Raise (ValueError "Unsupported `input_data`: <class 'str'>").
Proof.
  intros H. split; [reflexivity|]. unfold to_dataframe. rewrite H.
  reflexivity.
Qed.

Lemma labelled_fst (k : string) (c : string * pd.Series)
    (d : list (string * pd.Series)) :
  In c (filter (pd.labelled k) d) -> fst c = k.
Proof.
  intros H. apply filter_In in H as [_ H]. now apply String.eqb_eq.
Qed.

Lemma label_count_one (df : pd.DataFrame) (k : string) :
  label_count df k = 1%nat ->
  exists s, filter (pd.labelled k) (pd.data df) = [(k, s)].
Proof.
  unfold label_count. intros H.
  destruct (filter (pd.labelled k) (pd.data df)) as [|[k' s] [|? ?]] eqn:E;
    try discriminate H.
  assert (Hk : fst (k', s) = k) by (apply (labelled_fst k _ (pd.data df));
                                   rewrite E; now left).
  simpl in Hk. subst k'. now exists s.
Qed.

Lemma label_count_contains (df : pd.DataFrame) (k : string) :
  label_count df k = 1%nat -> py.contains k (pd.columns df) = true.
Proof.
  intros H. destruct (label_count_one df k H) as [s E].
  assert (Hin : In (k, s) (filter (pd.labelled k) (pd.data df)))
    by (rewrite E; now left).
  apply filter_In in Hin as [Hin _].
  unfold py.contains, pd.columns. apply existsb_exists.
  exists k. split; [|apply String.eqb_refl].
  apply in_map_iff. now exists (k, s).
Qed.

Lemma no_missing_label (df : pd.DataFrame) (names : list string) :
  Forall (fun k => label_count df k = 1%nat) names ->
  filter (fun n => negb (py.contains n (pd.columns df))) names = [].
Proof.
  induction 1 as [|k names Hk _ IH]; simpl; [reflexivity|].
  now rewrite (label_count_contains df k Hk).
Qed.

Lemma projected_columns (df : pd.DataFrame) (names : list string) :
  Forall (fun k => label_count df k = 1%nat) names ->
  let cols := flat_map (fun n => filter (pd.labelled n) (pd.data df)) names in
  map fst cols = names
  /\ Forall2 (fun k c => fst c = k
                         /\ pd.getitem df k = OK (pd.SelSeries (snd c)))
             names cols.
Proof.
  induction 1 as [|k names Hk _ [IH1 IH2]]; simpl.
  - split; [reflexivity|constructor].
  - destruct (label_count_one df k Hk) as [s E]. rewrite E. simpl. split.
    + now rewrite IH1.
    + constructor; [|exact IH2]. split; [reflexivity|].
      unfold pd.getitem. now rewrite E.
Qed.


(** C8: read with [header] None and no names of its own, [read_csv]
    hands the canonical column list to [pd.read_csv] as the names; the
    table read therefore has exactly the columns image_uri, label, split
    and passes schema validation. *)
Theorem read_csv_default_columns
    (File : Type) (GFile : string -> Result File)
    (pd_read_csv : File -> option (list string) -> Header
                   -> Result pd.DataFrame)
    (csv_file : string) (names : option (list string)) :
  names_label_columns pd_read_csv ->
  py.truthy_seq names = false ->
  read_csv GFile pd_read_csv csv_file HNone names
  = (f <- GFile csv_file ;;
     pd_read_csv f (Some constants.IMAGE_CSV_COLUMNS) HNone)
  /\ (forall f df,
        GFile csv_file = OK f ->
        pd_read_csv f (Some constants.IMAGE_CSV_COLUMNS) HNone = OK df ->
        read_csv GFile pd_read_csv csv_file HNone names = OK df
        /\ pd.columns df = constants.IMAGE_CSV_COLUMNS
        /\ _validate_data df = OK tt).
Proof.
  intros Hc Hn.
  assert (E : read_csv GFile pd_read_csv csv_file HNone names
              = (f <- GFile csv_file ;;
                 pd_read_csv f (Some constants.IMAGE_CSV_COLUMNS) HNone)).
  { unfold read_csv. simpl header_is_None. rewrite Hn. reflexivity. }
  split; [exact E|].
  intros f df Hf Hr. rewrite E. simpl. rewrite Hf.
  split; [exact Hr|].
  pose proof (Hc f _ df Hr) as Hcols.
  split; [exact Hcols|now apply validate_data_ok_iff].
Qed.

(** ** The properties at work on the concrete world *)

Lemma cells_from_labels (j : nat) (ns : list string) (f : Scenario.File) :
  map fst (Scenario.cells_from j ns f) = ns.
Proof.
  revert j; induction ns as [|n ns IH]; intros j; simpl;
    [reflexivity|now rewrite IH].
Qed.

Lemma scenario_reader_labels : names_label_columns Scenario.pd_read_csv.
Proof.
  intros f ns df H. simpl in H. injection H as <-.
  unfold pd.columns. simpl. apply cells_from_labels.
Qed.

(** End-to-end scenario 1 of the spec: one remote image, local runner. *)
Example scenario_local_run :
  Scenario.create Scenario.build_finishing (InDataFrame Scenario.one_cat)
    None "DirectRunner" None None
  = ([Call_to_dataframe; Call_validate_data; Call_validate_runner;
      logging_basicConfig "/tmp/tfrutil.log" 20;
      logging_setLevel "tensorflow" 40;
      Call_build_pipeline Scenario.one_cat
        (Build_PipelineArgs "create-tfrecords" "DirectRunner" None None
           "/out" (Some "gzip") 0 None false);
      Call_run; Call_wait_until_finish; logging_shutdown;
      os_path_exists "/tmp/tfrutil.log"],
     OK tt).
Proof. reflexivity. Qed.

(** End-to-end scenario 2: the same table, distributed runner, project
    and region absent. *)
Example scenario_dataflow_without_project :
  Scenario.create Scenario.build_finishing (InDataFrame Scenario.one_cat)
    None "DataFlowRunner" None None
  = ([Call_to_dataframe; Call_validate_data; Call_validate_runner],
     Raise (AttributeError
              ("DataFlowRunner requires project region and region "
               ++ "project is None and region is None"))).
Proof. reflexivity. Qed.

(** End-to-end scenario 3: the image-location column renamed to uri. *)
Example scenario_renamed_column :
  Scenario.create Scenario.build_finishing (InDataFrame Scenario.renamed)
    None "DirectRunner" None None
  = ([Call_to_dataframe; Call_validate_data],
     Raise (AttributeError "Dataframe must contain image_uri column {}.")).
Proof. reflexivity. Qed.

(** Reading the CSV file of the world without header and names. *)
Example scenario_read_csv :
  option_map pd.columns
    (match read_csv Scenario.GFile Scenario.pd_read_csv "labels.csv"
             HNone None with
     | OK df => Some df
     | Raise _ => None
     end)
  = Some ["image_uri"; "label"; "split"].
Proof. reflexivity. Qed.

Lemma validate_data_rejects_other_columns_witness :
  pd.columns Scenario.renamed <> constants.IMAGE_CSV_COLUMNS
  /\ exists e,
       _validate_data Scenario.renamed = Raise e
       /\ Scenario.create Scenario.build_finishing
            (InDataFrame Scenario.renamed) None "DirectRunner" None None
          = ([Call_to_dataframe; Call_validate_data], Raise e).
Proof.
  assert (H : pd.columns Scenario.renamed <> constants.IMAGE_CSV_COLUMNS)
    by discriminate.
  split; [exact H|].
  destruct (validate_data_rejects_other_columns
              Scenario.File Scenario.GFile Scenario.pd_read_csv
              Scenario.LOGFILE Scenario.LOGLEVEL Scenario.build_finishing
              (InDataFrame Scenario.renamed) "/out" HInfer None
              "DirectRunner" None None None "create-tfrecords"
              (Some "gzip") 0%Z Scenario.renamed H) as [_ Hk].
  destruct (Hk eq_refl) as (e & H1 & H2 & _).
  exists e. split; [exact H1|exact H2].
Defined.

Lemma validate_runner_dataflow_requires_gcs_witness :
  raises (_validate_runner Scenario.mixed_locations "DataFlowRunner"
            (Some "my-project") (Some "us-central1"))
  /\ _validate_runner
       (pd.setitem Scenario.mixed_locations constants.IMAGE_URI_KEY
          (pd.StrSeries ["gs://b/1.jpg"; "gs://b/2.jpg"]))
       "DataFlowRunner" (Some "my-project") (Some "us-central1")
     = OK tt.
Proof.
  destruct (validate_runner_dataflow_requires_gcs
              Scenario.mixed_locations ["gs://b/1.jpg"; "/tmp/2.jpg"]
              "my-project" "us-central1") as [H1 H2];
    [reflexivity | reflexivity | discriminate | discriminate |].
  split.
  - apply H1. exists "/tmp/2.jpg". split; [simpl; auto|reflexivity].
  - exact (proj2 (H2 ["gs://b/1.jpg"] "/tmp/2.jpg" [] "gs://b/2.jpg"
                    eq_refl eq_refl eq_refl eq_refl)).
Defined.

Lemma validate_runner_dataflow_requires_project_region_witness :
  raises (_validate_runner Scenario.one_cat "DataFlowRunner" None
            (Some "us-central1"))
  /\ _validate_runner Scenario.one_cat "DataFlowRunner"
       (Some "my-project") (Some "us-central1") = OK tt.
Proof.
  split.
  - apply (proj1 (validate_runner_dataflow_requires_project_region
                    Scenario.one_cat ["gs://b/1.jpg"] None
                    (Some "us-central1") eq_refl eq_refl eq_refl)).
    left. reflexivity.
  - apply (proj2 (validate_runner_dataflow_requires_project_region
                    Scenario.one_cat ["gs://b/1.jpg"] None None
                    eq_refl eq_refl eq_refl));
      discriminate.
Defined.

Lemma create_tfrecords_validates_in_order_witness :
  raises (snd (Scenario.create Scenario.build_finishing
                 (InDataFrame Scenario.one_cat) None "DataFlowRunner"
                 None None))
  /\ count is_submit
       (fst (Scenario.create Scenario.build_finishing
               (InDataFrame Scenario.one_cat) None "DataFlowRunner"
               None None)) = 0%nat.
Proof.
  destruct (proj2 (create_tfrecords_validates_in_order
                     Scenario.File Scenario.GFile Scenario.pd_read_csv
                     Scenario.LOGFILE Scenario.LOGLEVEL
                     Scenario.build_finishing
                     (InDataFrame Scenario.one_cat) "/out" HInfer None
                     "DataFlowRunner" None None None "create-tfrecords"
                     (Some "gzip") 0%Z) eq_refl) as (H1 & H2 & _).
  split; [exact H1|exact H2].
Defined.


Lemma create_tfrecords_integer_label_witness :
  exists lbl,
    pd.getitem Scenario.mixed_locations constants.LABEL_KEY
    = OK (pd.SelSeries lbl)
    /\ build_calls
         (fst (Scenario.create Scenario.build_finishing
                 (InDataFrame Scenario.mixed_locations) None "DirectRunner"
                 None None))
       = [(Scenario.mixed_locations,
           Build_PipelineArgs "create-tfrecords" "DirectRunner" None None
             "/out" (Some "gzip") 0
             None (pd.is_integer_dtype (pd.SelSeries lbl)))]
    /\ (pd.is_integer_dtype (pd.SelSeries lbl) = true
        <-> pd.dtype lbl = pd.int64).
Proof.
  apply (create_tfrecords_integer_label
           Scenario.File Scenario.GFile Scenario.pd_read_csv
           Scenario.LOGFILE Scenario.LOGLEVEL Scenario.build_finishing
           (InDataFrame Scenario.mixed_locations) "/out" HInfer None
           "DirectRunner" None None None "create-tfrecords"
           (Some "gzip") 0%Z Scenario.mixed_locations);
    reflexivity.
Defined.

Lemma validate_runner_accepts_empty_table_witness :
  _validate_runner Scenario.empty_table "DataFlowRunner"
    (Some "my-project") (Some "us-central1") = OK tt
  /\ exists args,
       build_calls
         (fst (Scenario.create Scenario.build_finishing
                 (InDataFrame Scenario.empty_table) None "DataFlowRunner"
                 (Some "my-project") (Some "us-central1")))
       = [(Scenario.empty_table, args)].
Proof.
  apply (validate_runner_accepts_empty_table
           Scenario.File Scenario.GFile Scenario.pd_read_csv
           Scenario.LOGFILE Scenario.LOGLEVEL Scenario.build_finishing
           "/out" HInfer None "create-tfrecords" (Some "gzip") 0%Z
           Scenario.empty_table "my-project" "us-central1");
    [reflexivity | reflexivity | discriminate | discriminate].
Defined.

Lemma to_dataframe_non_csv_str_unsupported_witness :
  Scenario.isdir "/data/images" = true
  /\ _is_directory "/data/images" = false
  /\ to_dataframe Scenario.GFile Scenario.pd_read_csv
       (InStr "/data/images") HInfer None
     = Raise (ValueError "Unsupported `input_data`: <class 'str'>").
Proof.
  split; [reflexivity|].
  apply (to_dataframe_non_csv_str_unsupported
           Scenario.File Scenario.GFile Scenario.pd_read_csv
           "/data/images" HInfer None).
  reflexivity.
Defined.


Lemma read_csv_default_columns_witness :
  exists df,
    read_csv Scenario.GFile Scenario.pd_read_csv "labels.csv" HNone None
    = OK df
    /\ pd.columns df = constants.IMAGE_CSV_COLUMNS
    /\ _validate_data df = OK tt.
Proof.
  eexists.
  apply (proj2 (read_csv_default_columns
                  Scenario.File Scenario.GFile Scenario.pd_read_csv
                  "labels.csv" None scenario_reader_labels eq_refl)
           [["gs://b/1.jpg"; "cat"; "train"];
            ["gs://b/2.jpg"; "dog"; "train"];
            ["gs://b/3.jpg"; "cat"; "test"]]);
    reflexivity.
Defined.

(** ** Where the code departs from the claims *)

(** C5 as stated fails: /data/images is a directory of the world and
    does not end in .csv, yet [to_dataframe] raises ValueError for it,
    not NotImplementedError. *)
Lemma to_dataframe_directory_counterexample :
  Scenario.isdir "/data/images" = true
  /\ py.endswith "/data/images" ".csv" = false
  /\ to_dataframe Scenario.GFile Scenario.pd_read_csv
       (InStr "/data/images") HInfer None
     = Raise (ValueError "Unsupported `input_data`: <class 'str'>")
  /\ to_dataframe Scenario.GFile Scenario.pd_read_csv
       (InStr "/data/images") HInfer None
     <> Raise NotImplementedError.
Proof.
  repeat split; try reflexivity. discriminate.
Qed.



(** * Further properties of the client *)

(** ** Python str operations *)

Lemma startswith_app_iff (pre s : string) :
  py.startswith s pre = true <-> exists rest, s = pre ++ rest.
Proof.
  unfold py.startswith. revert s.
  induction pre as [|a pre IH]; intros s.
  - destruct s; simpl; split; eauto.
  - destruct s as [|b s]; simpl.
    + split; [discriminate|intros [rest H]; discriminate H].
    + destruct (Ascii.ascii_dec a b) as [->|Hab].
      * rewrite IH. split; intros [rest H]; exists rest.
        -- now rewrite H.
        -- now injection H.
      * split; [discriminate|].
        intros [rest H]. injection H as H1 _. now elim Hab.
Qed.

Lemma substring_all (s : string) : substring 0 (String.length s) s = s.
Proof.
  induction s as [|c s IH]; simpl; [reflexivity|now rewrite IH].
Qed.

Lemma substring_skip (pre suf : string) :
  substring (String.length pre) (String.length suf) (pre ++ suf) = suf.
Proof.
  induction pre as [|c pre IH]; simpl; [apply substring_all|exact IH].
Qed.

Lemma length_app (a b : string) :
  String.length (a ++ b) = (String.length a + String.length b)%nat.
Proof.
  induction a as [|c a IH]; simpl; [reflexivity|now rewrite IH].
Qed.

Lemma substring_split (k : nat) (s : string) :
  (k <= String.length s)%nat ->
  s = substring 0 k s ++ substring k (String.length s - k) s.
Proof.
  revert k; induction s as [|c s IH]; intros k Hk; simpl in Hk.
  - assert (k = 0%nat) by lia. subst k. reflexivity.
  - destruct k as [|k].
    + simpl. now rewrite substring_all.
    + simpl. f_equal. apply IH. lia.
Qed.

Lemma endswith_app_iff (suf s : string) :
  py.endswith s suf = true <-> exists pre, s = pre ++ suf.
Proof.
  unfold py.endswith. split.
  - destruct (Nat.leb_spec (String.length suf) (String.length s)) as [Hle|Hlt];
      [|discriminate].
    intros H. apply String.eqb_eq in H.
    set (k := (String.length s - String.length suf)%nat) in *.
    exists (substring 0 k s).
    rewrite (substring_split k s) at 1 by lia.
    replace (String.length s - k)%nat with (String.length suf) by lia.
    now rewrite H.
  - intros [pre ->]. rewrite length_app.
    replace (String.length suf <=? String.length pre + String.length suf)%nat
      with true by (symmetry; apply Nat.leb_le; lia).
    replace (String.length pre + String.length suf - String.length suf)%nat
      with (String.length pre) by lia.
    rewrite substring_skip. apply String.eqb_refl.
Qed.

(** ** Schema validation *)

Lemma contains_In (x : string) (l : list string) :
  py.contains x l = true <-> In x l.
Proof.
  unfold py.contains. rewrite existsb_exists. split.
  - intros (y & Hy & E). apply String.eqb_eq in E. now subst y.
  - intros H. exists x. split; [exact H|apply String.eqb_refl].
Qed.

Lemma contains_not_In (x : string) (l : list string) :
  py.contains x l = false <-> ~ In x l.
Proof.
  rewrite <- contains_In. destruct (py.contains x l); split; congruence.
Qed.

(** X1: [_validate_data] accepts a table exactly when its column labels
    are image_uri, label, split in that order, and it looks at the labels
    only: two tables with the same labels get the same verdict, whatever
    their dtypes, values and index. *)
Theorem validate_data_looks_at_labels_only (df : pd.DataFrame) :
  (_validate_data df = OK tt
   <-> pd.columns df = ["image_uri"; "label"; "split"])
  /\ (forall df', pd.columns df' = pd.columns df ->
        _validate_data df' = _validate_data df).
Proof.
  split; [apply validate_data_ok_iff|].
  intros df' H. unfold _validate_data. now rewrite H.
Qed.

(** X2: which error [_validate_data] raises: the first missing one of
    image_uri, label, split, in that order, decides the message; with all
    three present but the column list not the canonical one (reordered,
    repeated or extra columns), it is the column-order message. *)
Theorem validate_data_error_precedence (df : pd.DataFrame) :
  let cols := pd.columns df in
  (~ In "image_uri" cols ->
     _validate_data df
     = Raise (AttributeError "Dataframe must contain image_uri column {}."))
  /\ (In "image_uri" cols -> ~ In "label" cols ->
        _validate_data df
        = Raise (AttributeError "Dataframe must contain label column."))
  /\ (In "image_uri" cols -> In "label" cols -> ~ In "split" cols ->
        _validate_data df
        = Raise (AttributeError "Dataframe must contain split column."))
  /\ (In "image_uri" cols -> In "label" cols -> In "split" cols ->
        cols <> ["image_uri"; "label"; "split"] ->
        _validate_data df
        = Raise (AttributeError
                   "Dataframe column order must be ['image_uri', 'label', 'split']")).
Proof.
  intros cols. unfold _validate_data. fold cols.
  change constants.IMAGE_URI_KEY with "image_uri".
  change constants.LABEL_KEY with "label".
  change constants.SPLIT_KEY with "split".
  repeat split.
  - intros H. apply contains_not_In in H. now rewrite H.
  - intros H1 H2. apply contains_In in H1. apply contains_not_In in H2.
    now rewrite H1, H2.
  - intros H1 H2 H3. apply contains_In in H1, H2.
    apply contains_not_In in H3. now rewrite H1, H2, H3.
  - intros H1 H2 H3 H4. apply contains_In in H1, H2, H3.
    apply list_eqb_neq in H4. rewrite H1, H2, H3. cbn [negb].
    change constants.IMAGE_CSV_COLUMNS with ["image_uri"; "label"; "split"].
    now rewrite H4.
Qed.

Lemma validate_data_error_precedence_witness :
  _validate_data Scenario.renamed
  = Raise (AttributeError "Dataframe must contain image_uri column {}.")
  /\ _validate_data Scenario.reordered
     = Raise (AttributeError
                "Dataframe column order must be ['image_uri', 'label', 'split']").
Proof.
  split.
  - apply (proj1 (validate_data_error_precedence Scenario.renamed)).
    simpl. intros [H|[H|[H|[]]]]; discriminate H.
  - apply (proj2 (proj2 (proj2
             (validate_data_error_precedence Scenario.reordered))));
      simpl; auto 6.
    discriminate.
Defined.

(** ** Runner policy *)

Lemma truthy_true (v : option string) :
  py.truthy v = true <-> exists s, v = Some s /\ s <> "".
Proof.
  destruct v as [s|]; simpl.
  - rewrite negb_true_iff, String.eqb_neq. split.
    + intros H. now exists s.
    + intros (s' & E & H). now injection E as ->.
  - split; [discriminate|intros (s & E & _); discriminate E].
Qed.

Lemma all_gcs_iff (uris : list string) :
  forallb is_gcs uris = true
  <-> Forall (fun u => exists rest, u = "gs://" ++ rest) uris.
Proof.
  rewrite forallb_forall, Forall_forall. unfold is_gcs.
  split; intros H u Hu; apply startswith_app_iff, H, Hu.
Qed.

Lemma no_column (df : pd.DataFrame) (key : string) :
  ~ In key (pd.columns df) -> filter (pd.labelled key) (pd.data df) = [].
Proof.
  unfold pd.columns. induction (pd.data df) as [|c d IH]; simpl; intros H.
  - reflexivity.
  - unfold pd.labelled at 1. destruct (String.eqb_spec (fst c) key) as [E|E].
    + elim H. now left.
    + apply IH. intros Hin. apply H. now right.
Qed.

Lemma validate_runner_direct (df : pd.DataFrame) (uris : list string)
    (project region : option string) :
  pd.getitem df constants.IMAGE_URI_KEY
  = OK (pd.SelSeries (pd.StrSeries uris)) ->
  _validate_runner df "DirectRunner" project region = OK tt.
Proof.
  intros H. unfold _validate_runner.
  change (py.contains "DirectRunner" ["DataFlowRunner"; "DirectRunner"])
    with true.
  cbn [negb bind Result_Monad]. rewrite H. reflexivity.
Qed.

Lemma unsupported_runner (runner : string) :
  runner <> "DataFlowRunner" -> runner <> "DirectRunner" ->
  py.contains runner ["DataFlowRunner"; "DirectRunner"] = false.
Proof.
  intros H1 H2. apply contains_not_In. simpl. intros [H|[H|[]]]; congruence.
Qed.

(** X3: a runner name other than DataFlowRunner and DirectRunner is
    refused with a message naming it, before the table is looked at:
    whatever the table, the project and the region. *)
Theorem validate_runner_unsupported_runner (df : pd.DataFrame)
    (runner : string) (project region : option string) :
  runner <> "DataFlowRunner" -> runner <> "DirectRunner" ->
  _validate_runner df runner project region
  = Raise (AttributeError ("Runner " ++ runner ++ " is not supported.")).
Proof.
  intros H1 H2. unfold _validate_runner.
  now rewrite (unsupported_runner runner H1 H2).
Qed.

Lemma validate_runner_unsupported_runner_witness :
  _validate_runner Scenario.renamed "DirectFlowRunner" None None
  = Raise (AttributeError "Runner DirectFlowRunner is not supported.").
Proof.
  apply (validate_runner_unsupported_runner Scenario.renamed
           "DirectFlowRunner" None None); discriminate.
Defined.

(** X4: on a table whose image locations are str, the runner policy
    passes exactly in two cases: the runner is DirectRunner (any
    locations, project and region), or it is DataFlowRunner, every
    location is gs:// followed by anything, and project and region are
    both non-empty str. *)
Theorem validate_runner_accepts_iff (df : pd.DataFrame) (uris : list string)
    (runner : string) (project region : option string) :
  pd.getitem df constants.IMAGE_URI_KEY
  = OK (pd.SelSeries (pd.StrSeries uris)) ->
  (_validate_runner df runner project region = OK tt
   <-> runner = "DirectRunner"
       \/ (runner = "DataFlowRunner"
           /\ Forall (fun u => exists rest, u = "gs://" ++ rest) uris
           /\ (exists p, project = Some p /\ p <> "")
           /\ (exists r, region = Some r /\ r <> ""))).
Proof.
  intros Hg. rewrite <- all_gcs_iff, <- !truthy_true.
  destruct (String.eqb_spec runner "DirectRunner") as [->|Hd].
  - rewrite (validate_runner_direct df uris _ _ Hg). tauto.
  - destruct (String.eqb_spec runner "DataFlowRunner") as [->|Hf].
    + rewrite (validate_runner_dataflow df uris _ _ Hg).
      destruct (forallb is_gcs uris), (py.truthy project),
        (py.truthy region); simpl; split;
        solve [ discriminate | auto
              | intros [H|(_ & H1 & H2 & H3)]; congruence ].
    + unfold _validate_runner. rewrite (unsupported_runner runner Hf Hd).
      cbn [negb].
      split; [discriminate|intros [H|(H & _)]; congruence].
Qed.

Lemma validate_data_looks_at_labels_only_witness :
  _validate_data Scenario.mixed_locations = _validate_data Scenario.one_cat.
Proof.
  apply (proj2 (validate_data_looks_at_labels_only Scenario.one_cat)
           Scenario.mixed_locations).
  reflexivity.
Defined.

Lemma validate_runner_accepts_iff_witness :
  _validate_runner Scenario.reordered "DirectRunner" None None = OK tt
  /\ _validate_runner Scenario.one_cat "DataFlowRunner"
       (Some "my-project") (Some "us-central1") = OK tt.
Proof.
  split.
  - apply (proj2 (validate_runner_accepts_iff Scenario.reordered
                    ["/tmp/1.jpg"; "/tmp/2.jpg"] "DirectRunner" None None
                    eq_refl)).
    left. reflexivity.
  - apply (proj2 (validate_runner_accepts_iff Scenario.one_cat
                    ["gs://b/1.jpg"] "DataFlowRunner" (Some "my-project")
                    (Some "us-central1") eq_refl)).
    right. split; [reflexivity|]. split.
    + constructor; [now exists "b/1.jpg"|constructor].
    + split; eexists; (split; [reflexivity|discriminate]).
Defined.

(** X5: the image-location column is read for every supported runner:
    on a table that has no image_uri column, [_validate_runner] raises
    KeyError for that label, under DirectRunner as under
    DataFlowRunner. *)
Theorem validate_runner_missing_image_uri (df : pd.DataFrame)
    (runner : string) (project region : option string) :
  runner = "DataFlowRunner" \/ runner = "DirectRunner" ->
  ~ In "image_uri" (pd.columns df) ->
  _validate_runner df runner project region = Raise (KeyError ["image_uri"]).
Proof.
  intros Hr Hc. unfold _validate_runner, pd.getitem.
  change constants.IMAGE_URI_KEY with "image_uri".
  rewrite (no_column df "image_uri" Hc).
  destruct Hr as [-> | ->]; reflexivity.
Qed.

Lemma validate_runner_missing_image_uri_witness :
  _validate_runner Scenario.renamed "DirectRunner" None None
  = Raise (KeyError ["image_uri"]).
Proof.
  apply (validate_runner_missing_image_uri Scenario.renamed "DirectRunner"
           None None).
  - right. reflexivity.
  - simpl. intros [H|[H|[H|[]]]]; discriminate H.
Defined.

(** X6: image locations that are not str are refused under every
    supported runner, also the local one: the str accessor of an int64 or
    bool column raises AttributeError before the runner is compared. *)
Theorem validate_runner_non_str_image_uri (df : pd.DataFrame)
    (s : pd.Series) (runner : string) (project region : option string) :
  runner = "DataFlowRunner" \/ runner = "DirectRunner" ->
  pd.getitem df constants.IMAGE_URI_KEY = OK (pd.SelSeries s) ->
  pd.dtype s <> pd.object ->
  _validate_runner df runner project region
  = Raise (AttributeError "Can only use .str accessor with string values!").
Proof.
  intros Hr Hg Hd. unfold _validate_runner. rewrite Hg.
  destruct s as [v|v|v|v]; [now elim Hd| | |now elim Hd];
    destruct Hr as [-> | ->]; reflexivity.
Qed.

Lemma validate_runner_non_str_image_uri_witness :
  _validate_data Scenario.numbered_images = OK tt
  /\ _validate_runner Scenario.numbered_images "DirectRunner" None None
     = Raise (AttributeError "Can only use .str accessor with string values!").
Proof.
  split; [reflexivity|].
  apply (validate_runner_non_str_image_uri Scenario.numbered_images
           (pd.IntSeries [1%Z]) "DirectRunner" None None).
  - right. reflexivity.
  - reflexivity.
  - discriminate.
Defined.

(** X7: under DataFlowRunner the location check comes first: when the
    image_uri column has the str accessor and one of its str entries
    does not start with gs://, the error is the one about GCS image
    locations, whether or not project and region are given and whatever
    entries that are not str the column holds besides. *)
Theorem validate_runner_gcs_error_first (df : pd.DataFrame)
    (sel : pd.Selection) (entries : list (option string))
    (project region : option string) :
  pd.getitem df constants.IMAGE_URI_KEY = OK sel ->
  pd.str sel = OK entries ->
  (exists u, In (Some u) entries /\ forall rest, u <> "gs://" ++ rest) ->
  _validate_runner df "DataFlowRunner" project region
  = Raise (AttributeError "DataFlowRunner requires GCS image locations.").
Proof.
  intros Hg Hs (u & Hu & Hn).
  rewrite (validate_runner_dataflow_entries df sel entries _ _ Hg Hs).
  assert (E : pd.all (pd.str_startswith entries "gs://") = false).
  { unfold pd.all, pd.str_startswith.
    apply not_true_is_false. intros Hall.
    rewrite forallb_forall in Hall.
    specialize (Hall (Some (py.startswith u "gs://"))).
    assert (Hin : In (Some (py.startswith u "gs://"))
                    (map (option_map (fun s => py.startswith s "gs://"))
                       entries))
      by (apply in_map_iff; exists (Some u); split; [reflexivity|exact Hu]).
    specialize (Hall Hin). cbv beta iota in Hall.
    destruct (py.startswith u "gs://") eqn:Eu; [|discriminate Hall].
    apply startswith_app_iff in Eu as [rest Er]. now elim (Hn rest). }
  now rewrite E.
Qed.

Lemma validate_runner_gcs_error_first_witness :
  _validate_runner
    (pd.setitem Scenario.one_cat constants.IMAGE_URI_KEY
       (pd.ObjSeries [pd.CNone; pd.CStr "/tmp/2.jpg"; pd.CInt 5]))
    "DataFlowRunner" None None
  = Raise (AttributeError "DataFlowRunner requires GCS image locations.").
Proof.
  apply (validate_runner_gcs_error_first
           (pd.setitem Scenario.one_cat constants.IMAGE_URI_KEY
              (pd.ObjSeries [pd.CNone; pd.CStr "/tmp/2.jpg"; pd.CInt 5]))
           (pd.SelSeries
              (pd.ObjSeries [pd.CNone; pd.CStr "/tmp/2.jpg"; pd.CInt 5]))
           [None; Some "/tmp/2.jpg"; None] None None eq_refl eq_refl).
  exists "/tmp/2.jpg". split; [simpl; auto|].
  intros rest H. discriminate H.
Defined.

(** ** Input normalisation *)

Lemma unique_In (x : string) (l : list string) :
  In x (pd.unique l) <-> In x l.
Proof.
  induction l as [|y l IH]; simpl; [tauto|].
  rewrite filter_In, IH, negb_true_iff, String.eqb_neq.
  destruct (string_dec y x) as [E|E]; [tauto|].
  split; [intros [H|[H _]]; auto|intros [H|H]; auto].
Qed.

Lemma missing_labels_In (df : pd.DataFrame) (names : list string)
    (k : string) :
  In k (pd.unique
          (filter (fun n => negb (py.contains n (pd.columns df))) names))
  <-> In k names /\ ~ In k (pd.columns df).
Proof.
  rewrite unique_In, filter_In, negb_true_iff, contains_not_In. tauto.
Qed.

Section NormalizerProperties.

Variable File : Type.
Variable GFile : string -> Result File.
Variable pd_read_csv :
  File -> option (list string) -> Header -> Result pd.DataFrame.

(** X8: a str input is handed to [read_csv] exactly when it is some
    prefix (possibly empty) followed by .csv, with that path, header and
    names; every other str is refused as unsupported input. *)
Theorem to_dataframe_routes_by_extension
    (header : Header) (names : option (list string)) :
  (forall pre,
     to_dataframe GFile pd_read_csv (InStr (pre ++ ".csv")) header names
     = read_csv GFile pd_read_csv (pre ++ ".csv") header names)
  /\ (forall s, (forall pre, s <> pre ++ ".csv") ->
        to_dataframe GFile pd_read_csv (InStr s) header names
        = Raise (ValueError "Unsupported `input_data`: <class 'str'>")).
Proof.
  split.
  - intros pre. unfold to_dataframe.
    replace (py.endswith (pre ++ ".csv") ".csv") with true; [reflexivity|].
    symmetry. apply endswith_app_iff. now exists pre.
  - intros s H. unfold to_dataframe.
    destruct (py.endswith s ".csv") eqn:E; [|reflexivity].
    apply endswith_app_iff in E as [pre Hp]. now elim (H pre).
Qed.

(** X9: projecting an in-memory table raises exactly when some requested
    name is not a column label of the table, and the error is then a
    KeyError that names exactly the requested labels the table lacks. *)
Theorem to_dataframe_projection_raises_iff
    (df : pd.DataFrame) (header : Header) (n : string) (ns : list string) :
  (raises (to_dataframe GFile pd_read_csv (InDataFrame df) header
             (Some (n :: ns)))
   <-> exists k, In k (n :: ns) /\ ~ In k (pd.columns df))
  /\ (forall e,
        to_dataframe GFile pd_read_csv (InDataFrame df) header
          (Some (n :: ns)) = Raise e ->
        exists keys,
          e = KeyError keys
          /\ forall k, In k keys
                       <-> In k (n :: ns) /\ ~ In k (pd.columns df)).
Proof.
  unfold to_dataframe, pd.getitem_list.
  set (names := n :: ns).
  pose proof (missing_labels_In df names) as Hm.
  destruct (pd.unique
              (filter (fun k => negb (py.contains k (pd.columns df))) names))
    as [|m rest] eqn:E.
  - split; [|discriminate]. split.
    + intros [e He]. discriminate He.
    + intros (k & Hk). apply Hm in Hk. destruct Hk.
  - split.
    + split; [|intros _; eexists; reflexivity].
      intros _. exists m. apply Hm. now left.
    + intros e He. injection He as <-. eexists. split; [reflexivity|exact Hm].
Qed.

(** X10: a projection of an in-memory table whose every name labels
    exactly one column always yields a table, and that table passes
    schema validation exactly when the requested names are image_uri,
    label, split in that order. *)
Theorem projection_valid_iff_canonical
    (df : pd.DataFrame) (header : Header) (names : list string) :
  names <> [] ->
  Forall (fun k => label_count df k = 1%nat) names ->
  exists res,
    to_dataframe GFile pd_read_csv (InDataFrame df) header (Some names)
    = OK res
    /\ (_validate_data res = OK tt
        <-> names = ["image_uri"; "label"; "split"]).
Proof.
  intros Hne Hall. destruct names as [|n ns]; [congruence|].
  destruct (projected_columns df (n :: ns) Hall) as [Hc _].
  unfold to_dataframe, pd.getitem_list.
  rewrite (no_missing_label df (n :: ns) Hall).
  eexists. split; [reflexivity|].
  rewrite validate_data_ok_iff. unfold pd.columns. cbn [pd.data].
  rewrite Hc. reflexivity.
Qed.

End NormalizerProperties.

Lemma to_dataframe_routes_by_extension_witness :
  to_dataframe Scenario.GFile Scenario.pd_read_csv (InStr "labels.CSV")
    HInfer None
  = Raise (ValueError "Unsupported `input_data`: <class 'str'>").
Proof.
  apply (proj2 (to_dataframe_routes_by_extension
                  Scenario.File Scenario.GFile Scenario.pd_read_csv
                  HInfer None) "labels.CSV").
  intros pre H.
  assert (E : py.endswith "labels.CSV" ".csv" = true)
    by (apply endswith_app_iff; now exists pre).
  discriminate E.
Defined.

Lemma to_dataframe_projection_raises_iff_witness :
  raises (to_dataframe Scenario.GFile Scenario.pd_read_csv
            (InDataFrame Scenario.one_cat) HInfer
            (Some ["image_uri"; "caption"])).
Proof.
  apply (proj1 (to_dataframe_projection_raises_iff
                  Scenario.File Scenario.GFile Scenario.pd_read_csv
                  Scenario.one_cat HInfer "image_uri" ["caption"])).
  exists "caption". split; [simpl; auto|].
  simpl. intros [H|[H|[H|[]]]]; discriminate H.
Defined.

Lemma projection_valid_iff_canonical_witness :
  exists res,
    to_dataframe Scenario.GFile Scenario.pd_read_csv
      (InDataFrame Scenario.reordered) HInfer
      (Some ["image_uri"; "label"; "split"]) = OK res
    /\ (_validate_data res = OK tt
        <-> ["image_uri"; "label"; "split"] = ["image_uri"; "label"; "split"]).
Proof.
  apply (projection_valid_iff_canonical
           Scenario.File Scenario.GFile Scenario.pd_read_csv
           Scenario.reordered HInfer ["image_uri"; "label"; "split"]).
  - discriminate.
  - repeat constructor.
Defined.

(** ** Dispatch *)

Section DispatchOutcome.

Variable File : Type.
Variable GFile : string -> Result File.
Variable pd_read_csv :
  File -> option (list string) -> Header -> Result pd.DataFrame.
Variables (LOGFILE : string) (LOGLEVEL : Z).
Variable build_pipeline : pd.DataFrame -> PipelineArgs -> Result Pipeline.

Variables (input_data : InputData) (output_dir : string) (header : Header)
  (names : option (list string)) (runner : string)
  (project region : option string)
  (dataflow_options : option (list (string * string)))
  (job_label : string) (compression : option string) (num_shards : Z).

Let invocation : Traced Event unit :=
  create_tfrecords GFile pd_read_csv LOGFILE LOGLEVEL build_pipeline
    input_data output_dir header names runner project region
    dataflow_options job_label compression num_shards.

Let normalized : Result pd.DataFrame :=
  to_dataframe GFile pd_read_csv input_data header names.

Let args_with (flag : bool) : PipelineArgs :=
  Build_PipelineArgs job_label runner project region output_dir compression
    num_shards dataflow_options flag.

(** X13: once the table is validated, the outcome of [create_tfrecords]
    is the outcome of building the pipeline, running it and waiting for
    it, in that order: the first of the three that raises has its
    exception raised unchanged, and otherwise the function returns. *)
Theorem create_tfrecords_outcome (df : pd.DataFrame) :
  normalized = OK df ->
  _validate_data df = OK tt ->
  _validate_runner df runner project region = OK tt ->
  exists flag,
    snd invocation
    = (p <- build_pipeline df (args_with flag) ;;
       result <- run p ;;
       wait_until_finish result ;;;
       ret tt).
Proof.
  intros Hn H1 H2.
  destruct (create_tfrecords_validated File GFile pd_read_csv LOGFILE LOGLEVEL
              build_pipeline input_data output_dir header names runner
              project region dataflow_options job_label compression
              num_shards df Hn H1 H2) as (lbl & _ & E).
  exists (pd.is_integer_dtype (pd.SelSeries lbl)).
  unfold invocation. rewrite E. cbn [bind Result_Monad ret].
  destruct (build_pipeline _ _) as [p|e]; [|reflexivity].
  destruct (run p) as [r|e]; [|reflexivity].
  destruct (wait_until_finish r) as [s|e]; reflexivity.
Qed.

(** X14: the state [wait_until_finish] returns is not looked at: when
    the three calls return, [create_tfrecords] returns normally and
    closes the log whatever that state is, FAILED and CANCELLED
    included. *)
Theorem create_tfrecords_ignores_job_state
    (df : pd.DataFrame) (lbl : pd.Series) (p : Pipeline)
    (result : PipelineResult) (state : JobState) :
  normalized = OK df ->
  _validate_data df = OK tt ->
  _validate_runner df runner project region = OK tt ->
  pd.getitem df constants.LABEL_KEY = OK (pd.SelSeries lbl) ->
  build_pipeline df (args_with (pd.is_integer_dtype (pd.SelSeries lbl)))
  = OK p ->
  run p = OK result ->
  wait_until_finish result = OK state ->
  invocation
  = ((validated_prefix LOGFILE LOGLEVEL
      ++ [Call_build_pipeline df
            (args_with (pd.is_integer_dtype (pd.SelSeries lbl)));
          Call_run; Call_wait_until_finish; logging_shutdown;
          os_path_exists (py.os_path_join "/tmp" LOGFILE)])%list,
     OK tt).
Proof.
  intros Hn H1 H2 Hl Hb Hr Hw.
  destruct (create_tfrecords_validated File GFile pd_read_csv LOGFILE LOGLEVEL
              build_pipeline input_data output_dir header names runner
              project region dataflow_options job_label compression
              num_shards df Hn H1 H2) as (lbl' & Hl' & E).
  rewrite Hl in Hl'. injection Hl' as <-.
  unfold invocation. rewrite E. cbn zeta. unfold args_with in Hb.
  rewrite Hb, Hr, Hw. reflexivity.
Qed.


End DispatchOutcome.

Section DispatchOfInputs.

Variable File : Type.
Variable GFile : string -> Result File.
Variable pd_read_csv :
  File -> option (list string) -> Header -> Result pd.DataFrame.
Variables (LOGFILE : string) (LOGLEVEL : Z).
Variable build_pipeline : pd.DataFrame -> PipelineArgs -> Result Pipeline.

Variables (output_dir : string)
  (project region : option string)
  (dataflow_options : option (list (string * string)))
  (job_label : string) (compression : option string) (num_shards : Z).

(** X11: passing the canonical column list as [names] puts a table in
    order: when each of image_uri, label, split labels exactly one column
    of an in-memory table (in any order, among other columns) and the
    image locations are str, [create_tfrecords] under DirectRunner
    validates the projected table and builds the pipeline on it - a table
    with the canonical columns and the index of the input. *)
Theorem create_tfrecords_reorders_by_names
    (df : pd.DataFrame) (uris : list string) (header : Header) :
  Forall (fun k => label_count df k = 1%nat) constants.IMAGE_CSV_COLUMNS ->
  pd.getitem df constants.IMAGE_URI_KEY
  = OK (pd.SelSeries (pd.StrSeries uris)) ->
  exists res args,
    to_dataframe GFile pd_read_csv (InDataFrame df) header
      (Some constants.IMAGE_CSV_COLUMNS) = OK res
    /\ pd.columns res = constants.IMAGE_CSV_COLUMNS
    /\ pd.index res = pd.index df
    /\ pd.getitem res constants.IMAGE_URI_KEY
       = OK (pd.SelSeries (pd.StrSeries uris))
    /\ build_calls
         (fst (create_tfrecords GFile pd_read_csv LOGFILE LOGLEVEL
                 build_pipeline (InDataFrame df) output_dir header
                 (Some constants.IMAGE_CSV_COLUMNS) "DirectRunner"
                 project region dataflow_options job_label compression
                 num_shards))
       = [(res, args)].
Proof.
  intros Hall Hg.
  pose proof (no_missing_label df _ Hall) as Hm.
  inversion Hall as [|k1 l1 H1 Hall1]; subst.
  inversion Hall1 as [|k2 l2 H2 Hall2]; subst.
  inversion Hall2 as [|k3 l3 H3 _]; subst.
  destruct (label_count_one df _ H1) as [a Ea].
  destruct (label_count_one df _ H2) as [b Eb].
  destruct (label_count_one df _ H3) as [c Ec].
  assert (Ha : a = pd.StrSeries uris).
  { unfold pd.getitem in Hg. rewrite Ea in Hg. now injection Hg. }
  subst a.
  set (res := {| pd.index := pd.index df;
                 pd.data := [(constants.IMAGE_URI_KEY, pd.StrSeries uris);
                             (constants.LABEL_KEY, b);
                             (constants.SPLIT_KEY, c)] |}).
  assert (Hto : to_dataframe GFile pd_read_csv (InDataFrame df) header
                  (Some constants.IMAGE_CSV_COLUMNS) = OK res).
  { unfold to_dataframe, constants.IMAGE_CSV_COLUMNS, pd.getitem_list.
    unfold constants.IMAGE_CSV_COLUMNS in Hm. rewrite Hm.
    cbn [flat_map]. rewrite Ea, Eb, Ec. reflexivity. }
  assert (Hgr : pd.getitem res constants.IMAGE_URI_KEY
                = OK (pd.SelSeries (pd.StrSeries uris))) by reflexivity.
  destruct (create_tfrecords_validated File GFile pd_read_csv LOGFILE LOGLEVEL
              build_pipeline (InDataFrame df) output_dir header
              (Some constants.IMAGE_CSV_COLUMNS) "DirectRunner" project
              region dataflow_options job_label compression num_shards
              res Hto eq_refl
              (validate_runner_direct res uris project region Hgr))
    as (lbl & _ & E).
  exists res. eexists. rewrite E.
  repeat split; try reflexivity; try exact Hto.
  destruct (build_pipeline _ _) as [p|e]; [|reflexivity].
  destruct (run p) as [r|e]; [|reflexivity].
  destruct (wait_until_finish r) as [s|e]; reflexivity.
Qed.

(** X12: a CSV file read without header and without names never fails
    schema validation: when the file opens and parses, [to_dataframe]
    returns the parsed table, [_validate_data] accepts it, and
    [create_tfrecords] gets as far as the runner policy, for every
    runner, project and region. *)
Theorem create_tfrecords_headerless_csv
    (pre : string) (names : option (list string)) (f : File)
    (df : pd.DataFrame) (runner : string) :
  names_label_columns pd_read_csv ->
  py.truthy_seq names = false ->
  GFile (pre ++ ".csv") = OK f ->
  pd_read_csv f (Some constants.IMAGE_CSV_COLUMNS) HNone = OK df ->
  to_dataframe GFile pd_read_csv (InStr (pre ++ ".csv")) HNone names = OK df
  /\ _validate_data df = OK tt
  /\ exists rest,
       fst (create_tfrecords GFile pd_read_csv LOGFILE LOGLEVEL
              build_pipeline (InStr (pre ++ ".csv")) output_dir HNone names
              runner project region dataflow_options job_label compression
              num_shards)
       = ([Call_to_dataframe; Call_validate_data; Call_validate_runner]
          ++ rest)%list.
Proof.
  intros Hc Hn Hf Hr.
  assert (Hto : to_dataframe GFile pd_read_csv (InStr (pre ++ ".csv"))
                  HNone names = OK df).
  { unfold to_dataframe.
    replace (py.endswith (pre ++ ".csv") ".csv") with true
      by (symmetry; apply endswith_app_iff; now exists pre).
    unfold read_csv. simpl header_is_None. rewrite Hn.
    cbn [negb andb bind Result_Monad]. now rewrite Hf. }
  assert (Hv : _validate_data df = OK tt)
    by (apply validate_data_ok_iff; exact (Hc f _ df Hr)).
  split; [exact Hto|]. split; [exact Hv|].
  destruct (_validate_runner df runner project region) as [[]|e] eqn:H2.
  - destruct (create_tfrecords_validated File GFile pd_read_csv LOGFILE
                LOGLEVEL build_pipeline (InStr (pre ++ ".csv")) output_dir
                HNone names runner project region dataflow_options job_label
                compression num_shards df Hto Hv H2) as (lbl & _ & ->).
    destruct (build_pipeline _ _) as [p|e]; [|eexists; reflexivity].
    destruct (run p) as [r|e]; [|eexists; reflexivity].
    destruct (wait_until_finish r) as [s|e]; eexists; reflexivity.
  - rewrite (create_tfrecords_runner_fails File GFile pd_read_csv LOGFILE
               LOGLEVEL build_pipeline (InStr (pre ++ ".csv")) output_dir
               HNone names runner project region dataflow_options job_label
               compression num_shards df e Hto Hv H2).
    now exists [].
Qed.

End DispatchOfInputs.

Lemma create_tfrecords_outcome_witness :
  exists flag,
    snd (Scenario.create Scenario.build_failing_while_running
           (InDataFrame Scenario.one_cat) None "DirectRunner" None None)
    = (p <- Scenario.build_failing_while_running Scenario.one_cat
              (Build_PipelineArgs "create-tfrecords" "DirectRunner" None None
                 "/out" (Some "gzip") 0 None flag) ;;
       result <- run p ;;
       wait_until_finish result ;;;
       ret tt).
Proof.
  apply (create_tfrecords_outcome
           Scenario.File Scenario.GFile Scenario.pd_read_csv
           Scenario.LOGFILE Scenario.LOGLEVEL
           Scenario.build_failing_while_running
           (InDataFrame Scenario.one_cat) "/out" HInfer None "DirectRunner"
           None None None "create-tfrecords" (Some "gzip") 0%Z
           Scenario.one_cat);
    reflexivity.
Defined.

Lemma create_tfrecords_ignores_job_state_witness :
  snd (Scenario.create Scenario.build_ending_failed
         (InDataFrame Scenario.one_cat) None "DirectRunner" None None)
  = OK tt
  /\ count is_close
       (fst (Scenario.create Scenario.build_ending_failed
               (InDataFrame Scenario.one_cat) None "DirectRunner"
               None None)) = 1%nat.
Proof.
  unfold Scenario.create.
  rewrite (create_tfrecords_ignores_job_state
             Scenario.File Scenario.GFile Scenario.pd_read_csv
             Scenario.LOGFILE Scenario.LOGLEVEL Scenario.build_ending_failed
             (InDataFrame Scenario.one_cat) "/out" HInfer None "DirectRunner"
             None None None "create-tfrecords" (Some "gzip") 0%Z
             Scenario.one_cat (pd.StrSeries ["cat"]) Scenario.ending_failed
             {| wait_until_finish := OK FAILED |} FAILED
             eq_refl eq_refl eq_refl eq_refl eq_refl eq_refl eq_refl).
  split; reflexivity.
Defined.

Lemma create_tfrecords_reorders_by_names_witness :
  exists res args,
    to_dataframe Scenario.GFile Scenario.pd_read_csv
      (InDataFrame Scenario.reordered) HInfer
      (Some constants.IMAGE_CSV_COLUMNS) = OK res
    /\ pd.columns res = constants.IMAGE_CSV_COLUMNS
    /\ pd.index res = pd.index Scenario.reordered
    /\ pd.getitem res constants.IMAGE_URI_KEY
       = OK (pd.SelSeries (pd.StrSeries ["/tmp/1.jpg"; "/tmp/2.jpg"]))
    /\ build_calls
         (fst (Scenario.create Scenario.build_finishing
                 (InDataFrame Scenario.reordered)
                 (Some constants.IMAGE_CSV_COLUMNS) "DirectRunner"
                 None None))
       = [(res, args)].
Proof.
  apply (create_tfrecords_reorders_by_names
           Scenario.File Scenario.GFile Scenario.pd_read_csv
           Scenario.LOGFILE Scenario.LOGLEVEL Scenario.build_finishing
           "/out" None None None "create-tfrecords" (Some "gzip") 0%Z
           Scenario.reordered ["/tmp/1.jpg"; "/tmp/2.jpg"] HInfer).
  - repeat constructor.
  - reflexivity.
Defined.

Lemma create_tfrecords_headerless_csv_witness :
  exists df,
    to_dataframe Scenario.GFile Scenario.pd_read_csv (InStr "labels.csv")
      HNone None = OK df
    /\ _validate_data df = OK tt.
Proof.
  eexists.
  destruct (create_tfrecords_headerless_csv
              Scenario.File Scenario.GFile Scenario.pd_read_csv
              Scenario.LOGFILE Scenario.LOGLEVEL Scenario.build_finishing
              "/out" None None None "create-tfrecords" (Some "gzip") 0%Z
              "labels" None
              [["gs://b/1.jpg"; "cat"; "train"];
               ["gs://b/2.jpg"; "dog"; "train"];
               ["gs://b/3.jpg"; "cat"; "test"]]
              _ "DataFlowRunner"
              scenario_reader_labels eq_refl eq_refl eq_refl)
    as (H1 & H2 & _).
  split; [exact H1|exact H2].
Defined.
